(** * Circuit-building gates and the deepest-path pass of qiskit-terra

    A shallow embedding of
      - qiskit/extensions/standard/cy.py     (controlled-Y, first-generation API)
      - qiskit/extensions/standard/z.py      (Pauli Z, first-generation API)
      - qiskit/extensions/standard/iswap.py  (iSWAP, [append]-based API)
      - qiskit/transpiler/passes/deepest_path.py
    Python methods that mutate [self] and may raise become functions in a
    state-and-exception monad: the circuit (or the pass state) is threaded
    through, and a raised exception keeps the state reached so far, as a
    Python exception leaves the object it interrupted. *)

From stdpp Require Import base option list gmap strings.
From Stdlib Require Import ZArith Lia Ascii.
From Stdlib Require DecimalString DecimalZ DecimalPos.

Set Warnings "-register-all".
Open Scope string_scope.
Open Scope list_scope.

(** ** Errors and the state-and-exception monad *)

(** The error taxonomy of the specification (section 7);
    [PassExecutionError] wraps a failure raised from inside a pass, with the
    failing pass's identity. *)
Inductive ErrorKind : Type :=
| DuplicateRegisterError
| UnknownWireError
| ArityMismatchError
| DuplicateWireArgumentError
| NodeNotFoundError
| MissingPropertyError
| InvariantViolationError
| PassExecutionError (pass : string) (cause : ErrorKind).

#[global] Instance ErrorKind_eq_dec : EqDecision ErrorKind.
Proof. solve_decision. Defined.

(** [Raised e] is a Python exception of kind [e]; [Returned a] a normal return. *)
Inductive result (A : Type) : Type :=
| Raised (e : ErrorKind)
| Returned (a : A).
Arguments Raised {A} e.
Arguments Returned {A} a.

(** A method on a mutable object of type [S]. *)
Definition M (S A : Type) : Type := S -> S * result A.

Definition ret {S A : Type} (a : A) : M S A := fun s => (s, Returned a).

Definition raise {S A : Type} (e : ErrorKind) : M S A := fun s => (s, Raised e).

Definition bind {S A B : Type} (m : M S A) (k : A -> M S B) : M S B :=
  fun s =>
    match m s with
    | (s', Returned a) => k a s'
    | (s', Raised e) => (s', Raised e)
    end.

(** Reads the object itself (Python's [self]). *)
Definition get {S : Type} : M S S := fun s => (s, Returned s).

Declare Scope py_scope.
Delimit Scope py_scope with py.
Notation "'call' x <- m ; k" := (bind m (fun x => k))
  (at level 10, x name, m at level 100, k at level 200) : py_scope.
Notation "'exec' m ; k" := (bind m (fun _ => k))
  (at level 10, m at level 100, k at level 200) : py_scope.
Open Scope py_scope.

(** [for x in xs: acc = body(acc, x)]: a Python [for] loop whose body updates
    the local variable [acc] and may mutate the object or raise. *)
Fixpoint for_in {S A B : Type} (xs : list A) (acc : B) (body : B -> A -> M S B) : M S B :=
  match xs with
  | [] => ret acc
  | x :: xs' => call acc' <- body acc x; for_in xs' acc' body
  end.

(** [range(n)] *)
Definition range (n : nat) : list Z := Z.of_nat <$> seq 0 n.

(** A result computed without touching the object. *)
Definition lift {S A : Type} (r : result A) : M S A := fun s => (s, r).

(** ** Strings *)

(** Python's ["%d" % n] for an int [n]: decimal digits, a leading ["-"]
    for a negative number, no leading zero. *)
Definition format_d (n : Z) : string :=
  DecimalString.NilZero.string_of_int (Z.to_int n).

(** The character occurs in the string. *)
Fixpoint has_char (c : Ascii.ascii) (s : string) : bool :=
  match s with
  | EmptyString => false
  | String a s' => Ascii.eqb a c || has_char c s'
  end.

(** ** The Wire Registry *)

(** The registry of one kind of wire maps a declared register name to its
    size; a wire is a register name with an index, and is declared when the
    registry holds its register and the index is within the size. *)
Definition declared (registry : gmap string nat) (name : string) (size : nat) (index : Z) : bool :=
  bool_decide (registry !! name = Some size) && (0 <=? index)%Z && (index <? Z.of_nat size)%Z.

(** Modelled from the spec: the Wire Registry is not in the sources.
    [resolve(register, index)] returns the wire or fails with
    [UnknownWireError]; the register is given by its name and size. *)
Definition resolve (registry : gmap string nat) (name : string) (size : nat) (index : Z)
  : result (string * Z) :=
  if declared registry name size index then Returned (name, index)
  else Raised UnknownWireError.

(** ** The first-generation circuit API (cy.py, z.py) *)

Module Legacy.

(** A quantum register: [QuantumRegister(name, sz)]. *)
Record QuantumRegister : Type := { name : string; sz : nat }.

#[global] Instance QuantumRegister_eq_dec : EqDecision QuantumRegister.
Proof. solve_decision. Defined.

(** A qubit is the tuple [(register, index)]; the index is a Python int. *)
Definition Qubit : Type := QuantumRegister * Z.

(** The wire a qubit argument addresses: register name and index. *)
Definition wire (q : Qubit) : string * Z := (name q.1, q.2).

(** Gate parameters: numeric or symbolic. Every gate below has none. *)
Variant Param : Type :=
| Numeric (v : Z)
| Symbolic (s : string).

#[global] Instance Param_eq_dec : EqDecision Param.
Proof. solve_decision. Defined.

(** [Gate(name, param, arg, circ)]: the attributes [Gate.__init__] stores.
    [circuit] is the reference to the owning circuit, kept as that circuit's
    identity ([None] for Python's [circ=None]). *)
Record Gate : Type := {
  gate_name : string;
  param : list Param;
  arg : list Qubit;
  circuit : option nat
}.

#[global] Instance Gate_eq_dec : EqDecision Gate.
Proof. solve_decision. Defined.

(** The circuit object: its identity, the declared qubit registers
    (name to size), and the attached gates in program order. *)
Record QuantumCircuit : Type := {
  ident : nat;
  regs : gmap string nat;
  data : list Gate
}.

(** The qubit is a declared wire of the registry. *)
Definition known (registry : gmap string nat) (q : Qubit) : bool :=
  declared registry (name q.1) (sz q.1) q.2.

(** Modelled from the spec: [QuantumCircuit._check_qubit] is not in the
    sources; it resolves the qubit in the circuit's Wire Registry and so
    fails with [UnknownWireError] if the wire was not declared. *)
Definition _check_qubit (q : Qubit) : M QuantumCircuit unit :=
  call c <- get;
  exec lift (resolve (regs c) (name q.1) (sz q.1) q.2);
  ret tt.

(** Modelled from the spec: [QuantumCircuit._check_dups] is not in the
    sources; it fails with [DuplicateWireArgumentError] if the same wire
    appears twice in the qubit arguments. *)
Definition _check_dups (qubits : list Qubit) : M QuantumCircuit unit :=
  if bool_decide (NoDup (wire <$> qubits)) then ret tt
  else raise DuplicateWireArgumentError.

(** Modelled from the spec: [QuantumCircuit._attach] is not in the sources;
    it is the generic entry point that appends one operation at the current
    end of the circuit and returns it. *)
Definition _attach (g : Gate) : M QuantumCircuit Gate :=
  fun c => ({| ident := ident c; regs := regs c; data := data c ++ [g] |}, Returned g).

(** Modelled from the spec: [InstructionSet] is not in the sources; it
    collects the gates handed to [InstructionSet.add], in the order they
    were added. *)
Definition InstructionSet : Type := list Gate.

Definition InstructionSet_new : InstructionSet := [].

Definition InstructionSet_add (gs : InstructionSet) (g : Gate) : InstructionSet := gs ++ [g].

(** *** cy.py *)

(** [CyGate.__init__(self, ctl, tgt, circ=None)] *)
Definition CyGate (ctl tgt : Qubit) (circ : option nat) : Gate :=
  {| gate_name := "cy"; param := []; arg := [ctl; tgt]; circuit := circ |}.

(** [CyGate.inverse(self)]: [return self] *)
Definition CyGate_inverse (self : Gate) : Gate := self.

(** [def cy(self, ctl, tgt)] *)
Definition cy (ctl tgt : Qubit) : M QuantumCircuit Gate :=
  exec _check_qubit ctl;
  exec _check_qubit tgt;
  exec _check_dups [ctl; tgt];
  call self <- get;
  _attach (CyGate ctl tgt (Some (ident self))).

(** *** z.py *)

(** [ZGate.__init__(self, qubit, circ=None)] *)
Definition ZGate (qubit : Qubit) (circ : option nat) : Gate :=
  {| gate_name := "z"; param := []; arg := [qubit]; circuit := circ |}.

(** [ZGate.inverse(self)]: [return self] *)
Definition ZGate_inverse (self : Gate) : Gate := self.

(** The argument of [z]: a whole [QuantumRegister] or one qubit tuple
    (the two cases of [isinstance(q, QuantumRegister)]). *)
Variant ZArg : Type :=
| WholeRegister (q : QuantumRegister)
| OneQubit (q : Qubit).

(** What [z] returns: the attached gate, or the [InstructionSet]. *)
Variant ZResult : Type :=
| AttachedGate (g : Gate)
| GateSet (gs : InstructionSet).

(** The [else] branch of [z]: check the qubit, attach one [ZGate]. *)
Definition z_qubit (q : Qubit) : M QuantumCircuit Gate :=
  exec _check_qubit q;
  call self <- get;
  _attach (ZGate q (Some (ident self))).

(** [def z(self, q)]. The recursive call [self.z((q, j))] passes a tuple,
    never a register, so it always runs the [else] branch: [z_qubit]. *)
Definition z (q : ZArg) : M QuantumCircuit ZResult :=
  match q with
  | WholeRegister r =>
      call gs <- for_in (range (sz r)) InstructionSet_new
                   (fun gs j => call g <- z_qubit (r, j); ret (InstructionSet_add gs g));
      ret (GateSet gs)
  | OneQubit q =>
      call g <- z_qubit q;
      ret (AttachedGate g)
  end.

(** *** qasm and reapply (cy.py, z.py) *)

Section InstructionHelpers.

(** [Instruction._qasmif] and [Instruction._modifiers] are not in the
    sources: [_qasmif(self, string)] is any function from the gate and its
    OPENQASM line to the text returned, and [_modifiers(self, gate)] any
    method that may change the circuit holding [gate] or raise. *)
Variable _qasmif : Gate -> string -> string.
Variable _modifiers : Gate -> ZResult -> M QuantumCircuit unit.

(** ["cy %s[%d],%s[%d];" % (ctl[0].name, ctl[1], tgt[0].name, tgt[1])] *)
Definition cy_line (ctl tgt : Qubit) : string :=
  "cy " +:+ name ctl.1 +:+ "[" +:+ format_d ctl.2 +:+ "],"
        +:+ name tgt.1 +:+ "[" +:+ format_d tgt.2 +:+ "];".

(** [CyGate.qasm(self)]. [None] stands for the [IndexError] of
    [self.arg[0]] or [self.arg[1]] on a gate with fewer than two
    arguments, which [CyGate.__init__] never builds. *)
Definition CyGate_qasm (self : Gate) : option string :=
  ctl ← arg self !! 0;
  tgt ← arg self !! 1;
  Some (_qasmif self (cy_line ctl tgt)).

(** [CyGate.reapply(self, circ)]: the arguments [self.arg[0]] and
    [self.arg[1]] are evaluated before [circ] is touched ([None] is their
    [IndexError]); then [circ.cy] runs and its result goes to
    [self._modifiers]. *)
Definition CyGate_reapply (self : Gate) : option (M QuantumCircuit unit) :=
  ctl ← arg self !! 0;
  tgt ← arg self !! 1;
  Some (call g <- cy ctl tgt; _modifiers self (AttachedGate g)).

(** ["z %s[%d];" % (qubit[0].name, qubit[1])] *)
Definition z_line (qubit : Qubit) : string :=
  "z " +:+ name qubit.1 +:+ "[" +:+ format_d qubit.2 +:+ "];".

(** [ZGate.qasm(self)]; [None] is the [IndexError] of [self.arg[0]]. *)
Definition ZGate_qasm (self : Gate) : option string :=
  qubit ← arg self !! 0;
  Some (_qasmif self (z_line qubit)).

(** [ZGate.reapply(self, circ)]: [self.arg[0]] is a qubit tuple, so
    [circ.z] takes its single-qubit branch. *)
Definition ZGate_reapply (self : Gate) : option (M QuantumCircuit unit) :=
  qubit ← arg self !! 0;
  Some (call g <- z (OneQubit qubit); _modifiers self g).

End InstructionHelpers.

(** Every attached gate acts on declared wires of the circuit, no wire
    twice. *)
Definition well_formed (c : QuantumCircuit) : Prop :=
  Forall (fun g => Forall (fun q => known (regs c) q = true) (arg g)
                   /\ NoDup (wire <$> arg g))
         (data c).

End Legacy.

(** ** The [append]-based circuit API (iswap.py) *)

Module Circuit.

(** [QuantumRegister(size, name)] and [ClassicalRegister(size, name)]. *)
Record Register : Type := { reg_size : nat; reg_name : string }.

#[global] Instance Register_eq_dec : EqDecision Register.
Proof. solve_decision. Defined.

Definition QuantumRegister (size : nat) (name : string) : Register :=
  {| reg_size := size; reg_name := name |}.

(** One bit of a register; [Qubit] and [Clbit] are its two kinds. *)
Record Bit : Type := { register : Register; index : Z }.

#[global] Instance Bit_eq_dec : EqDecision Bit.
Proof. solve_decision. Defined.

Abbreviation Qubit := Bit.
Abbreviation Clbit := Bit.

(** [q[i]] on a register. *)
Definition getitem (q : Register) (i : Z) : Bit := {| register := q; index := i |}.

(** The wire a bit addresses: register name and index. *)
Definition wire (b : Bit) : string * Z := (reg_name (register b), index b).

(** Gate parameters: numeric or symbolic. Every gate below has none. *)
Variant Param : Type :=
| Numeric (v : Z)
| Symbolic (s : string).

(** The operation descriptor: what [Gate.__init__(name, num_qubits, params)]
    stores (a gate has no classical bits), and the nested [definition], a
    sequence of (descriptor, qubit-args, clbit-args) triples, [None] until
    [_define] fills it. *)
Inductive Gate : Type := mkGate {
  name : string;
  num_qubits : nat;
  num_clbits : nat;
  params : list Param;
  definition : option (list (Gate * list Qubit * list Clbit))
}.

(** [Gate.__init__(self, name, num_qubits, params)] *)
Definition Gate_init (name : string) (num_qubits : nat) (params : list Param) : Gate :=
  {| name := name; num_qubits := num_qubits; num_clbits := 0; params := params;
     definition := None |}.

(** Modelled from the spec: h.py, s.py and x.py are not in the sources. The
    core treats a gate as an opaque operation descriptor (name, parameter
    list, arity): [HGate()], [SGate()] and [CXGate()] are the descriptors of
    the one-qubit gates h and s and of the two-qubit gate cx. *)
Definition HGate : Gate := Gate_init "h" 1 [].

Definition SGate : Gate := Gate_init "s" 1 [].

Definition CXGate : Gate := Gate_init "cx" 2 [].

(** The circuit: the two Wire Registries (qubits, classical bits) and the
    applied operations in program order. *)
Record QuantumCircuit : Type := {
  qregs : gmap string nat;
  cregs : gmap string nat;
  data : list (Gate * list Qubit * list Clbit)
}.

(** The bit is a declared wire of the registry. *)
Definition known (registry : gmap string nat) (b : Bit) : bool :=
  declared registry (reg_name (register b)) (reg_size (register b)) (index b).

(** Modelled from the spec: [QuantumCircuit.append] is not in the sources;
    it is [apply_operation(descriptor, qubit_args, clbit_args)]. A duplicate
    wire in one call always fails with [DuplicateWireArgumentError]
    (section 8), so that check comes first; the call then fails with
    [ArityMismatchError] if the argument counts do not match the
    descriptor's arity, and with [UnknownWireError] if an argument wire was
    not declared; otherwise it adds one operation at the current end and
    returns the new node's identity (its position). *)
Definition append (instruction : Gate) (qargs : list Qubit) (cargs : list Clbit)
  : M QuantumCircuit nat :=
  fun c =>
    if negb (bool_decide (NoDup (wire <$> qargs)))
    then (c, Raised DuplicateWireArgumentError)
    else if negb (Nat.eqb (length qargs) (num_qubits instruction)
                  && Nat.eqb (length cargs) (num_clbits instruction))
    then (c, Raised ArityMismatchError)
    else if negb (forallb (known (qregs c)) qargs && forallb (known (cregs c)) cargs)
    then (c, Raised UnknownWireError)
    else ({| qregs := qregs c; cregs := cregs c;
             data := data c ++ [(instruction, qargs, cargs)] |},
          Returned (length (data c))).

(** *** iswap.py *)

(** [iSwapGate.__init__(self)] *)
Definition iSwapGate : Gate := Gate_init "iswap" 2 [].

(** [iSwapGate._define(self)]: stores the decomposition in [self.definition]. *)
Definition _define (self : Gate) : Gate :=
  let q := QuantumRegister 2 "q" in
  {| name := name self; num_qubits := num_qubits self; num_clbits := num_clbits self;
     params := params self;
     definition := Some [
       (SGate, [getitem q 0], []);
       (SGate, [getitem q 1], []);
       (HGate, [getitem q 0], []);
       (CXGate, [getitem q 0; getitem q 1], []);
       (CXGate, [getitem q 1; getitem q 0], []);
       (HGate, [getitem q 1], [])
     ] |}.

(** A complex number with integer parts. The literals [0], [1] and [1j] of
    [to_matrix] are such numbers, and [dtype=complex] stores them exactly. *)
Record Gaussian : Type := { re : Z; im : Z }.

#[global] Instance Gaussian_eq_dec : EqDecision Gaussian.
Proof. solve_decision. Defined.

Definition c0 : Gaussian := {| re := 0; im := 0 |}.
Definition c1 : Gaussian := {| re := 1; im := 0 |}.
Definition ci : Gaussian := {| re := 0; im := 1 |}.

(** [iSwapGate.to_matrix(self)]: the rows of the array. *)
Definition to_matrix (self : Gate) : list (list Gaussian) :=
  [[c1; c0; c0; c0];
   [c0; c0; ci; c0];
   [c0; ci; c0; c0];
   [c0; c0; c0; c1]].

(** Arithmetic on such numbers and on matrices given by their rows, to
    compare [to_matrix] with the matrices of the class docstring. *)
Definition gadd (a b : Gaussian) : Gaussian :=
  {| re := re a + re b; im := im a + im b |}.

Definition gmul (a b : Gaussian) : Gaussian :=
  {| re := re a * re b - im a * im b; im := re a * im b + im a * re b |}.

Definition gconj (a : Gaussian) : Gaussian := {| re := re a; im := - im a |}.

Definition transpose (m : list (list Gaussian)) : list (list Gaussian) :=
  (fun j => (fun row => nth j row c0) <$> m) <$> seq 0 (length (hd [] m)).

Definition dot (row col : list Gaussian) : Gaussian :=
  foldr gadd c0 (zip_with gmul row col).

Definition mmul (a b : list (list Gaussian)) : list (list Gaussian) :=
  (fun row => dot row <$> transpose b) <$> a.

(** The conjugate transpose. *)
Definition dagger (m : list (list Gaussian)) : list (list Gaussian) :=
  transpose ((fun row : list Gaussian => gconj <$> row) <$> m).

Definition identity4 : list (list Gaussian) :=
  [[c1; c0; c0; c0];
   [c0; c1; c0; c0];
   [c0; c0; c1; c0];
   [c0; c0; c0; c1]].

(** The two factors of the docstring: SWAP and the diagonal [1, i, i, 1]. *)
Definition docstring_swap : list (list Gaussian) :=
  [[c1; c0; c0; c0];
   [c0; c0; c1; c0];
   [c0; c1; c0; c0];
   [c0; c0; c0; c1]].

Definition docstring_diagonal : list (list Gaussian) :=
  [[c1; c0; c0; c0];
   [c0; ci; c0; c0];
   [c0; c0; ci; c0];
   [c0; c0; c0; c1]].

(** [def iswap(self, qubit1, qubit2)] *)
Definition iswap (qubit1 qubit2 : Qubit) : M QuantumCircuit nat :=
  append iSwapGate [qubit1; qubit2] [].

End Circuit.

(** ** The transpiler: DAG, Property Set, pass framework, deepest_path.py *)

Module Transpiler.

(** A wire of the DAG: one qubit or one classical bit. *)
Variant WireKind : Type := QubitWire | ClbitWire.

#[global] Instance WireKind_eq_dec : EqDecision WireKind.
Proof. solve_decision. Defined.

Definition Wire : Type := WireKind * Circuit.Bit.

(** A DAG node: the input or output node of a wire, or an operation node
    with its operation descriptor and bound wires. *)
Variant NodeContent : Type :=
| InNode (wire : Wire)
| OutNode (wire : Wire)
| OpNode (op : Circuit.Gate) (qargs : list Circuit.Bit) (cargs : list Circuit.Bit).

(** A node as handed out by the DAG: its stable identifier and content. *)
Record DAGNode : Type := { node_id : nat; content : NodeContent }.

(** The DAG: an arena of nodes addressed by stable integer identifiers
    ([None] once removed), and the directed edges, each labelled by the
    wire it follows. *)
Record DAGCircuit : Type := {
  nodes : list (option NodeContent);
  edges : list (nat * nat * Wire)
}.

(** A Property Set value: one of the payloads the shipped analyses write. *)
Variant PropertyValue : Type :=
| NodeList (path : list DAGNode)
| IntValue (n : Z)
| BoolValue (b : bool).

(** What a pass works on during one execution: the current DAG (a mutable
    object handed to [run]) and the shared Property Set. *)
Record PassState : Type := {
  dag : DAGCircuit;
  property_set : gmap string PropertyValue
}.

(** [self.property_set[key] = value] *)
Definition property_set_setitem (key : string) (value : PropertyValue) : M PassState unit :=
  fun st => ({| dag := dag st; property_set := <[key := value]> (property_set st) |},
             Returned tt).

(** A method call on the DAG object of the pass state. *)
Definition on_dag {A : Type} (method : M DAGCircuit A) : M PassState A :=
  fun st =>
    let '(d, r) := method (dag st) in
    ({| dag := d; property_set := property_set st |}, r).

(** *** The DAG operations the pass and its examples use *)

(** The node stored under an identifier, if it is still in the DAG. *)
Definition get_node (d : DAGCircuit) (v : nat) : option DAGNode :=
  match nodes d !! v with
  | Some (Some c) => Some {| node_id := v; content := c |}
  | _ => None
  end.

Definition is_op (d : DAGCircuit) (v : nat) : bool :=
  match nodes d !! v with
  | Some (Some (OpNode _ _ _)) => true
  | _ => false
  end.

Definition is_out (d : DAGCircuit) (v : nat) : bool :=
  match nodes d !! v with
  | Some (Some (OutNode _)) => true
  | _ => false
  end.

(** The identifiers in use, in the order the nodes were created. *)
Definition node_ids (d : DAGCircuit) : list nat :=
  filter (fun v => is_Some (get_node d v)) (seq 0 (length (nodes d))).

Definition predecessors (d : DAGCircuit) (v : nat) : list nat :=
  (fun e => e.1.1) <$> filter (fun e => e.1.2 = v) (edges d).

Definition empty_dag : DAGCircuit := {| nodes := []; edges := [] |}.

(** Modelled from the spec: the DAG constructor is not in the sources. A
    DAG is created with one input and output node pair per registered wire,
    joined by an edge. *)
Definition add_wire (w : Wire) (d : DAGCircuit) : DAGCircuit :=
  let i := length (nodes d) in
  {| nodes := nodes d ++ [Some (InNode w); Some (OutNode w)];
     edges := edges d ++ [(i, S i, w)] |}.

(** The output node of a wire, if the wire was registered. *)
Definition output_node (d : DAGCircuit) (w : Wire) : option nat :=
  fst <$> list_find
    (fun n => match n with
              | Some (OutNode w') => bool_decide (w' = w)
              | _ => false
              end = true)
    (nodes d).

(** Splices node [v] into wire [w] immediately before the wire's output
    node [out]: the edge that ended at [out] now ends at [v]. *)
Definition splice (v : nat) (es : list (nat * nat * Wire)) (end_of_wire : Wire * nat)
  : list (nat * nat * Wire) :=
  let '(w, out) := end_of_wire in
  ((fun e : nat * nat * Wire => if bool_decide (e.1.2 = out) then (e.1.1, v, e.2) else e) <$> es)
  ++ [(v, out, w)].

(** Modelled from the spec: [DAGCircuit.apply_operation] is not in the
    sources. It fails with [DuplicateWireArgumentError],
    [ArityMismatchError] or [UnknownWireError] as the circuit's entry point
    does; on success it creates one operation node, splices it in before
    the output node of every wire it touches, and returns the new node's
    identity. *)
Definition apply_operation (op : Circuit.Gate) (qargs cargs : list Circuit.Bit)
  : M DAGCircuit nat :=
  fun d =>
    let wires := (pair QubitWire <$> qargs) ++ (pair ClbitWire <$> cargs) in
    if negb (bool_decide (NoDup (Circuit.wire <$> qargs)))
    then (d, Raised DuplicateWireArgumentError)
    else if negb (Nat.eqb (length qargs) (Circuit.num_qubits op)
                  && Nat.eqb (length cargs) (Circuit.num_clbits op))
    then (d, Raised ArityMismatchError)
    else
      match mapM (output_node d) wires with
      | None => (d, Raised UnknownWireError)
      | Some outs =>
          let v := length (nodes d) in
          ({| nodes := nodes d ++ [Some (OpNode op qargs cargs)];
              edges := foldl (splice v) (edges d) (zip wires outs) |},
           Returned v)
      end.

(** A topological order by repeatedly producing the first pending node
    whose predecessors were all produced; a round with pending nodes and
    none ready means a cycle. *)
Fixpoint topological_order (fuel : nat) (d : DAGCircuit) (pending produced : list nat)
  : result (list nat) :=
  match pending, fuel with
  | [], _ => Returned produced
  | _ :: _, 0 => Raised InvariantViolationError
  | _ :: _, S fuel' =>
      match filter (fun v => forallb (fun u => bool_decide (u ∈ produced)) (predecessors d v) = true)
                   pending with
      | [] => Raised InvariantViolationError
      | v :: _ => topological_order fuel' d (filter (fun u => u ≠ v) pending) (produced ++ [v])
      end
  end.

(** The table of the dynamic programme: depth and the predecessor that
    achieves it. *)
Definition depth_of (table : gmap nat (nat * option nat)) (v : nat) : nat :=
  match table !! v with
  | Some (k, _) => k
  | None => 0
  end.

(** The deepest of [candidates], the earliest produced among equals. *)
Definition deepest (table : gmap nat (nat * option nat)) (produced candidates : list nat)
  : option nat :=
  foldl (fun best u =>
           if bool_decide (u ∈ candidates)
           then match best with
                | None => Some u
                | Some b => if Nat.ltb (depth_of table b) (depth_of table u) then Some u else Some b
                end
           else best)
        None produced.

(** [depth(v) = 1 + max(depth(u) for u in predecessors(v))] for operation
    nodes, [0] for input nodes; an output node is not counted. *)
Definition relax (d : DAGCircuit) (acc : list nat * gmap nat (nat * option nat)) (v : nat)
  : list nat * gmap nat (nat * option nat) :=
  let '(produced, table) := acc in
  let best := deepest table produced (predecessors d v) in
  let below := from_option (depth_of table) 0 best in
  (produced ++ [v], <[v := (if is_op d v then S below else below, best)]> table).

(** The operation nodes on the tracked path that ends at [v]. *)
Fixpoint path_to (fuel : nat) (d : DAGCircuit) (table : gmap nat (nat * option nat)) (v : nat)
  : list nat :=
  match fuel with
  | 0 => []
  | S fuel' =>
      match table !! v with
      | Some (_, Some u) => path_to fuel' d table u
      | _ => []
      end ++ (if is_op d v then [v] else [])
  end.

(** Modelled from the spec: [DAGCircuit.longest_path] is not in the
    sources. Dynamic programming over a topological order, tracking the
    predecessor that achieves the maximum to reconstruct the path; the path
    ends at the deepest predecessor of an output node and holds operation
    nodes only; a cyclic graph signals [InvariantViolationError]. The DAG
    is only read. *)
Definition longest_path : M DAGCircuit (list DAGNode) :=
  fun d =>
    match topological_order (length (nodes d)) d (node_ids d) [] with
    | Raised e => (d, Raised e)
    | Returned order =>
        let table := (foldl (relax d) ([], ∅) order).2 in
        let path :=
          match deepest table order (filter (fun v => is_out d v = true) order) with
          | Some out => path_to (length (nodes d)) d table out
          | None => []
          end in
        (d, Returned (omap (get_node d) path))
    end.

(** *** The pass framework *)

Variant PassKind : Type := Analysis | Transformation.

(** Modelled from the spec: the pass base classes (basepasses) are not in
    the sources. A pass has a [run(dag) -> dag_or_None] and declares
    required, preserved and invalidated property names. *)
Record Pass : Type := {
  pass_name : string;
  kind : PassKind;
  requires : list string;
  preserves : list string;
  invalidates : list string;
  pass_run : M PassState (option DAGCircuit)
}.

(** Modelled from the spec: [AnalysisPass] is not in the sources. A
    subclass that only defines [run] declares nothing else. *)
Definition AnalysisPass (name : string) (run : M PassState (option DAGCircuit)) : Pass :=
  {| pass_name := name; kind := Analysis; requires := []; preserves := [];
     invalidates := []; pass_run := run |}.

(** Modelled from the spec: the framework's pre-execution check is not in
    the sources. It verifies that the pass's declared required properties
    exist in the Property Set and fails with [MissingPropertyError]
    otherwise. *)
Definition check_requires (p : Pass) (ps : gmap string PropertyValue) : result unit :=
  if forallb (fun key => bool_decide (is_Some (ps !! key))) (requires p)
  then Returned tt
  else Raised MissingPropertyError.

(** The keys a pass invalidates and does not re-declare as preserved. *)
Definition stale_keys (p : Pass) : list string :=
  filter (fun key => key ∉ preserves p) (invalidates p).

(** Modelled from the spec: the framework's execution of one pass is not in
    the sources. It checks the required properties; invokes the pass with
    the current DAG and Property Set; a replacement DAG returned by a
    transformation pass becomes the current DAG, while an analysis pass has
    any returned DAG discarded and only its Property Set writes retained;
    the invalidated keys are then removed. A failure of [run] is surfaced
    as [PassExecutionError] with the pass's identity and the underlying
    error, and the state of the last completed pass is kept. *)
Definition execute_pass (p : Pass) : M PassState unit :=
  fun st =>
    match check_requires p (property_set st) with
    | Raised e => (st, Raised e)
    | Returned _ =>
        match pass_run p st with
        | (_, Raised e) => (st, Raised (PassExecutionError (pass_name p) e))
        | (st', Returned replacement) =>
            let current :=
              match kind p, replacement with
              | Transformation, Some d => d
              | _, _ => dag st'
              end in
            ({| dag := current;
                property_set := foldr delete (property_set st') (stale_keys p) |},
             Returned tt)
        end
    end.

(** A method of the DAG object that only reads it. *)
Definition read_only {A : Type} (method : M DAGCircuit A) : Prop :=
  forall d : DAGCircuit, (method d).1 = d.

(** *** deepest_path.py *)

Section DeepestPathPass.

(** The pass is stated for any implementation of [dag.longest_path()]: a
    method of the DAG object that returns a list of nodes or raises. *)
Variable longest_path : M DAGCircuit (list DAGNode).

(** [DeepestPath.run(self, dag)]; a Python function without [return]
    returns [None]. *)
Definition run : M PassState (option DAGCircuit) :=
  call path <- on_dag longest_path;
  exec property_set_setitem "deepest_path" (NodeList path);
  ret None.

(** [class DeepestPath(AnalysisPass)] *)
Definition DeepestPath : Pass := AnalysisPass "DeepestPath" run.

End DeepestPathPass.

End Transpiler.

(** ** Sample inputs *)

(** A first-generation circuit with the single register [q[2]]. *)
Definition legacy_q : Legacy.QuantumRegister := {| Legacy.name := "q"; Legacy.sz := 2 |}.

Definition legacy_circuit : Legacy.QuantumCircuit :=
  {| Legacy.ident := 7; Legacy.regs := {["q" := 2]}; Legacy.data := [] |}.

(** The same circuit after [cy(q[0], q[1])]. *)
Definition legacy_circuit_cy : Legacy.QuantumCircuit :=
  (Legacy.cy (legacy_q, 0%Z) (legacy_q, 1%Z) legacy_circuit).1.

(** Another circuit that declares [q[2]], and one that declares nothing. *)
Definition other_circuit : Legacy.QuantumCircuit :=
  {| Legacy.ident := 8; Legacy.regs := {["q" := 2]}; Legacy.data := [] |}.

Definition bare_circuit : Legacy.QuantumCircuit :=
  {| Legacy.ident := 9; Legacy.regs := ∅; Legacy.data := [] |}.

(** A register that [legacy_circuit] never declared. *)
Definition legacy_r : Legacy.QuantumRegister := {| Legacy.name := "r"; Legacy.sz := 1 |}.

(** The scenario of the specification: register [q[2]], [H] on [q0], then
    [CX] on [(q0, q1)]. *)
Definition q0 : Circuit.Bit := Circuit.getitem (Circuit.QuantumRegister 2 "q") 0.

Definition q1 : Circuit.Bit := Circuit.getitem (Circuit.QuantumRegister 2 "q") 1.

Definition h_cx_dag : Transpiler.DAGCircuit :=
  let d0 := Transpiler.add_wire (Transpiler.QubitWire, q1)
              (Transpiler.add_wire (Transpiler.QubitWire, q0) Transpiler.empty_dag) in
  let d1 := (Transpiler.apply_operation Circuit.HGate [q0] [] d0).1 in
  (Transpiler.apply_operation Circuit.CXGate [q0; q1] [] d1).1.

Definition h_node : Transpiler.DAGNode :=
  {| Transpiler.node_id := 4; Transpiler.content := Transpiler.OpNode Circuit.HGate [q0] [] |}.

Definition cx_node : Transpiler.DAGNode :=
  {| Transpiler.node_id := 5;
     Transpiler.content := Transpiler.OpNode Circuit.CXGate [q0; q1] [] |}.

(** A malformed graph: two operation nodes that follow each other. *)
Definition cyclic_dag : Transpiler.DAGCircuit :=
  {| Transpiler.nodes := [Some (Transpiler.OpNode Circuit.HGate [q0] []);
                          Some (Transpiler.OpNode Circuit.SGate [q0] [])];
     Transpiler.edges := [(0, 1, (Transpiler.QubitWire, q0));
                          (1, 0, (Transpiler.QubitWire, q0))] |}.

(** A pass state before any analysis ran. *)
Definition fresh_state : Transpiler.PassState :=
  {| Transpiler.dag := h_cx_dag; Transpiler.property_set := ∅ |}.

(** A pass that declares the required property ["deepest_path"], as in the
    scenario of the specification. *)
Definition needs_deepest_path : Transpiler.Pass :=
  {| Transpiler.pass_name := "NeedsDeepestPath"; Transpiler.kind := Transpiler.Analysis;
     Transpiler.requires := ["deepest_path"]; Transpiler.preserves := [];
     Transpiler.invalidates := []; Transpiler.pass_run := ret None |}.

(** A circuit of the [append]-based API with the register [q[2]]. *)
Definition q_circuit : Circuit.QuantumCircuit :=
  {| Circuit.qregs := {["q" := 2]}; Circuit.cregs := ∅; Circuit.data := [] |}.

(** * Properties *)

(** ** The monad and the registry *)

Lemma bind_returned {S A B : Type} (m : M S A) (k : A -> M S B) (s s' : S) (a : A) :
  m s = (s', Returned a) -> bind m k s = k a s'.
Proof. intros Hm. unfold bind. rewrite Hm. reflexivity. Qed.

Lemma bind_raised {S A B : Type} (m : M S A) (k : A -> M S B) (s s' : S) (e : ErrorKind) :
  m s = (s', Raised e) -> bind m k s = (s', Raised e).
Proof. intros Hm. unfold bind. rewrite Hm. reflexivity. Qed.

Lemma range_length (n : nat) : length (range n) = n.
Proof. unfold range. rewrite length_fmap. apply length_seq. Qed.

Lemma range_lookup (n j : nat) : j < n -> range n !! j = Some (Z.of_nat j).
Proof.
  intros Hj. unfold range. rewrite list_lookup_fmap.
  rewrite lookup_seq_lt by exact Hj. reflexivity.
Qed.

Lemma range_bounds (n : nat) (j : Z) : j ∈ range n -> (0 <= j < Z.of_nat n)%Z.
Proof.
  unfold range. intros Hin. apply list_elem_of_fmap in Hin as (i & -> & Hi).
  apply elem_of_seq in Hi. lia.
Qed.

Lemma declared_true (registry : gmap string nat) (name : string) (size : nat) (index : Z) :
  declared registry name size index = true <->
  registry !! name = Some size /\ (0 <= index < Z.of_nat size)%Z.
Proof.
  unfold declared. rewrite !andb_true_iff, bool_decide_eq_true.
  rewrite Z.leb_le, Z.ltb_lt. tauto.
Qed.

(** ** The first-generation checks, as the circuit sees them *)

Lemma check_qubit_declared (q : Legacy.Qubit) (c : Legacy.QuantumCircuit) :
  Legacy.known (Legacy.regs c) q = true ->
  Legacy._check_qubit q c = (c, Returned tt).
Proof.
  unfold Legacy.known. intros Hd.
  unfold Legacy._check_qubit, bind, get, lift, resolve, ret.
  rewrite Hd. reflexivity.
Qed.

Lemma check_qubit_undeclared (q : Legacy.Qubit) (c : Legacy.QuantumCircuit) :
  Legacy.known (Legacy.regs c) q = false ->
  Legacy._check_qubit q c = (c, Raised UnknownWireError).
Proof.
  unfold Legacy.known. intros Hd.
  unfold Legacy._check_qubit, bind, get, lift, resolve, ret.
  rewrite Hd. reflexivity.
Qed.

Lemma check_dups_twice (q : Legacy.Qubit) (c : Legacy.QuantumCircuit) :
  Legacy._check_dups [q; q] c = (c, Raised DuplicateWireArgumentError).
Proof.
  unfold Legacy._check_dups. rewrite bool_decide_eq_false_2; [reflexivity |].
  cbn. rewrite NoDup_cons. intros [Hnotin _]. apply Hnotin. left.
Qed.

(** Attaching a gate declares and forgets no register. *)
Lemma attach_state (g : Legacy.Gate) (c : Legacy.QuantumCircuit) :
  Legacy._attach g c =
  ({| Legacy.ident := Legacy.ident c; Legacy.regs := Legacy.regs c;
      Legacy.data := Legacy.data c ++ [g] |}, Returned g).
Proof. reflexivity. Qed.

Lemma z_qubit_declared (q : Legacy.Qubit) (c : Legacy.QuantumCircuit) :
  Legacy.known (Legacy.regs c) q = true ->
  Legacy.z_qubit q c = Legacy._attach (Legacy.ZGate q (Some (Legacy.ident c))) c.
Proof.
  intros Hd. unfold Legacy.z_qubit.
  rewrite (bind_returned _ _ c c tt) by (apply check_qubit_declared; exact Hd).
  reflexivity.
Qed.

Lemma z_qubit_undeclared (q : Legacy.Qubit) (c : Legacy.QuantumCircuit) :
  Legacy.known (Legacy.regs c) q = false ->
  Legacy.z_qubit q c = (c, Raised UnknownWireError).
Proof.
  intros Hd. unfold Legacy.z_qubit.
  apply bind_raised, check_qubit_undeclared, Hd.
Qed.

(** ** cy.py and z.py: argument checks *)

Lemma cy_checks_passed (ctl tgt : Legacy.Qubit) (c : Legacy.QuantumCircuit) :
  Legacy._check_qubit ctl c = (c, Returned tt) ->
  Legacy._check_qubit tgt c = (c, Returned tt) ->
  Legacy._check_dups [ctl; tgt] c = (c, Returned tt) ->
  Legacy.cy ctl tgt c = Legacy._attach (Legacy.CyGate ctl tgt (Some (Legacy.ident c))) c.
Proof.
  intros Hctl Htgt Hdups. unfold Legacy.cy.
  rewrite (bind_returned _ _ c c tt Hctl).
  rewrite (bind_returned _ _ c c tt Htgt).
  rewrite (bind_returned _ _ c c tt Hdups).
  reflexivity.
Qed.

Lemma cy_same_qubit (q : Legacy.Qubit) (c : Legacy.QuantumCircuit) :
  Legacy.cy q q c =
  (c, Raised (if Legacy.known (Legacy.regs c) q
              then DuplicateWireArgumentError else UnknownWireError)).
Proof.
  unfold Legacy.cy. destruct (Legacy.known (Legacy.regs c) q) eqn:Hq.
  - rewrite (bind_returned _ _ c c tt) by (apply check_qubit_declared, Hq).
    rewrite (bind_returned _ _ c c tt) by (apply check_qubit_declared, Hq).
    apply bind_raised, check_dups_twice.
  - apply bind_raised, check_qubit_undeclared, Hq.
Qed.

Lemma cy_undeclared (ctl tgt : Legacy.Qubit) (c : Legacy.QuantumCircuit) :
  Legacy.known (Legacy.regs c) ctl = false \/ Legacy.known (Legacy.regs c) tgt = false ->
  Legacy.cy ctl tgt c = (c, Raised UnknownWireError).
Proof.
  intros Hbad. unfold Legacy.cy.
  destruct (Legacy.known (Legacy.regs c) ctl) eqn:Hctl.
  - destruct Hbad as [Hbad | Hbad]; [discriminate |].
    rewrite (bind_returned _ _ c c tt) by (apply check_qubit_declared, Hctl).
    apply bind_raised, check_qubit_undeclared, Hbad.
  - apply bind_raised, check_qubit_undeclared, Hctl.
Qed.

(** ** z.py: the loop over a register *)

(** The loop of [z] over indices that are all in range of a declared
    register attaches one gate per index, in the order of the indices. *)
Lemma z_loop (r : Legacy.QuantumRegister) (js : list Z) :
  forall (c : Legacy.QuantumCircuit) (gs : Legacy.InstructionSet),
    Legacy.regs c !! Legacy.name r = Some (Legacy.sz r) ->
    Forall (fun j => (0 <= j < Z.of_nat (Legacy.sz r))%Z) js ->
    for_in js gs
      (fun gs j => call g <- Legacy.z_qubit (r, j); ret (Legacy.InstructionSet_add gs g)) c =
    ({| Legacy.ident := Legacy.ident c; Legacy.regs := Legacy.regs c;
        Legacy.data :=
          Legacy.data c ++ ((fun j => Legacy.ZGate (r, j) (Some (Legacy.ident c))) <$> js) |},
     Returned (gs ++ ((fun j => Legacy.ZGate (r, j) (Some (Legacy.ident c))) <$> js))).
Proof.
  induction js as [| j js IH]; intros c gs Hreg Hjs.
  - cbn. rewrite !app_nil_r. destruct c; reflexivity.
  - apply Forall_cons in Hjs as [Hj Hjs].
    cbn [for_in].
    assert (Hknown : Legacy.known (Legacy.regs c) (r, j) = true).
    { unfold Legacy.known. apply declared_true. cbn. split; [exact Hreg | exact Hj]. }
    erewrite bind_returned; cycle 1.
    { erewrite bind_returned; cycle 1.
      - rewrite z_qubit_declared by exact Hknown. apply attach_state.
      - reflexivity. }
    rewrite IH by assumption. cbn.
    unfold Legacy.InstructionSet_add. rewrite <- !app_assoc. reflexivity.
Qed.

(** ** iswap.py: the generic entry point on a repeated qubit *)

Lemma iswap_same_qubit (q : Circuit.Qubit) (c : Circuit.QuantumCircuit) :
  Circuit.iswap q q c = (c, Raised DuplicateWireArgumentError).
Proof.
  unfold Circuit.iswap, Circuit.append.
  rewrite bool_decide_eq_false_2; [reflexivity |].
  cbn. rewrite NoDup_cons. intros [Hnotin _]. apply Hnotin. left.
Qed.

(** ** The claims about cy.py, z.py and iswap.py *)

(** C3, as the code has it. For every circuit and every qubit [q],
    [iswap(q, q)] raises [DuplicateWireArgumentError] and leaves the
    circuit as it was. [cy(q, q)] raises and leaves the circuit as it was
    too (no gate is attached): with [DuplicateWireArgumentError] when [q]
    is a declared wire of the circuit; when it is not, the wire check of
    [cy] runs before its duplicate check and the error is
    [UnknownWireError]. *)
Theorem same_qubit_twice_rejected :
  (forall (c : Legacy.QuantumCircuit) (q : Legacy.Qubit),
      Legacy.cy q q c =
      (c, Raised (if Legacy.known (Legacy.regs c) q
                  then DuplicateWireArgumentError else UnknownWireError)))
  /\ (forall (c : Circuit.QuantumCircuit) (q : Circuit.Qubit),
      Circuit.iswap q q c = (c, Raised DuplicateWireArgumentError)).
Proof.
  split.
  - intros c q. apply cy_same_qubit.
  - intros c q. apply iswap_same_qubit.
Qed.

(** C3 as stated fails: on the circuit with the single register [q[2]],
    [cy] called twice with the undeclared qubit [(r, 0)] raises
    [UnknownWireError], so it is not true that every circuit and qubit give
    [DuplicateWireArgumentError]. *)
Lemma same_qubit_twice_undeclared :
  Legacy.cy (legacy_r, 0%Z) (legacy_r, 0%Z) legacy_circuit
  = (legacy_circuit, Raised UnknownWireError)
  /\ ~ (forall (c : Legacy.QuantumCircuit) (q : Legacy.Qubit),
         (Legacy.cy q q c).2 = Raised DuplicateWireArgumentError).
Proof.
  assert (Hrun : Legacy.cy (legacy_r, 0%Z) (legacy_r, 0%Z) legacy_circuit
                 = (legacy_circuit, Raised UnknownWireError)).
  { vm_compute. reflexivity. }
  split; [exact Hrun |].
  intros Hall. specialize (Hall legacy_circuit (legacy_r, 0%Z)).
  rewrite Hrun in Hall. discriminate Hall.
Qed.

(** C4. A qubit argument that is not a declared wire of the circuit makes
    the call raise [UnknownWireError] with the circuit unchanged, so before
    any gate is attached: [cy(ctl, tgt)] when [ctl] or [tgt] is undeclared,
    and [z(q)] for a single undeclared qubit [q]. *)
Theorem undeclared_qubit_rejected (c : Legacy.QuantumCircuit) :
  (forall ctl tgt : Legacy.Qubit,
      Legacy.known (Legacy.regs c) ctl = false \/ Legacy.known (Legacy.regs c) tgt = false ->
      Legacy.cy ctl tgt c = (c, Raised UnknownWireError))
  /\ (forall q : Legacy.Qubit,
      Legacy.known (Legacy.regs c) q = false ->
      Legacy.z (Legacy.OneQubit q) c = (c, Raised UnknownWireError)).
Proof.
  split.
  - intros ctl tgt Hbad. apply cy_undeclared, Hbad.
  - intros q Hq. unfold Legacy.z.
    apply bind_raised, z_qubit_undeclared, Hq.
Qed.

Lemma undeclared_qubit_rejected_witness :
  Legacy.cy (legacy_q, 0%Z) (legacy_r, 0%Z) legacy_circuit
  = (legacy_circuit, Raised UnknownWireError)
  /\ Legacy.z (Legacy.OneQubit (legacy_q, 2%Z)) legacy_circuit
     = (legacy_circuit, Raised UnknownWireError).
Proof.
  split.
  - apply (proj1 (undeclared_qubit_rejected legacy_circuit)).
    right. vm_compute. reflexivity.
  - apply (proj2 (undeclared_qubit_rejected legacy_circuit)).
    vm_compute. reflexivity.
Defined.

(** C5. The convenience calls only translate to the generic entry point:
    [iswap(q1, q2)] is [append(iSwapGate(), [q1, q2], [])], and [cy(ctl, tgt)],
    once its three argument checks have passed, is
    [_attach(CyGate(ctl, tgt, self))]: same returned gate, same circuit. *)
Theorem convenience_calls_translate :
  (forall (c : Circuit.QuantumCircuit) (qubit1 qubit2 : Circuit.Qubit),
      Circuit.iswap qubit1 qubit2 c
      = Circuit.append Circuit.iSwapGate [qubit1; qubit2] [] c)
  /\ (forall (c : Legacy.QuantumCircuit) (ctl tgt : Legacy.Qubit),
      Legacy._check_qubit ctl c = (c, Returned tt) ->
      Legacy._check_qubit tgt c = (c, Returned tt) ->
      Legacy._check_dups [ctl; tgt] c = (c, Returned tt) ->
      Legacy.cy ctl tgt c
      = Legacy._attach (Legacy.CyGate ctl tgt (Some (Legacy.ident c))) c).
Proof.
  split.
  - intros c qubit1 qubit2. reflexivity.
  - intros c ctl tgt Hctl Htgt Hdups. apply cy_checks_passed; assumption.
Qed.

Lemma convenience_calls_translate_witness :
  Legacy.cy (legacy_q, 0%Z) (legacy_q, 1%Z) legacy_circuit
  = Legacy._attach
      (Legacy.CyGate (legacy_q, 0%Z) (legacy_q, 1%Z) (Some 7)) legacy_circuit.
Proof.
  apply (proj2 convenience_calls_translate legacy_circuit (legacy_q, 0%Z) (legacy_q, 1%Z)).
  - vm_compute. reflexivity.
  - vm_compute. reflexivity.
  - vm_compute. reflexivity.
Defined.

(** C8. [CyGate.inverse] and [ZGate.inverse] return the gate they are
    called on: [inverse g = g], so [inverse] is an involution and the
    name, parameter list and bound arguments of the gate are unmodified. *)
Theorem inverse_returns_self (g : Legacy.Gate) :
  (Legacy.CyGate_inverse g = g /\ Legacy.ZGate_inverse g = g)
  /\ (Legacy.CyGate_inverse (Legacy.CyGate_inverse g) = g
      /\ Legacy.ZGate_inverse (Legacy.ZGate_inverse g) = g)
  /\ (Legacy.gate_name (Legacy.CyGate_inverse g) = Legacy.gate_name g
      /\ Legacy.param (Legacy.CyGate_inverse g) = Legacy.param g
      /\ Legacy.arg (Legacy.CyGate_inverse g) = Legacy.arg g)
  /\ (Legacy.gate_name (Legacy.ZGate_inverse g) = Legacy.gate_name g
      /\ Legacy.param (Legacy.ZGate_inverse g) = Legacy.param g
      /\ Legacy.arg (Legacy.ZGate_inverse g) = Legacy.arg g).
Proof.
  unfold Legacy.CyGate_inverse, Legacy.ZGate_inverse.
  repeat split.
Qed.

(** C9. Called with a whole register [q] of the circuit, [z] attaches one
    [ZGate] to each qubit [(q, j)], [j = 0 .. q.sz - 1], in increasing
    index order, and returns the [InstructionSet] collecting those gates;
    called with a single qubit of the circuit it attaches exactly one
    [ZGate] to that qubit and returns it. *)
Theorem z_register_and_qubit (c : Legacy.QuantumCircuit) :
  (forall r : Legacy.QuantumRegister,
      Legacy.regs c !! Legacy.name r = Some (Legacy.sz r) ->
      exists gates : list Legacy.Gate,
        Legacy.z (Legacy.WholeRegister r) c
        = ({| Legacy.ident := Legacy.ident c; Legacy.regs := Legacy.regs c;
              Legacy.data := Legacy.data c ++ gates |},
           Returned (Legacy.GateSet gates))
        /\ length gates = Legacy.sz r
        /\ forall j : nat, j < Legacy.sz r ->
             gates !! j = Some (Legacy.ZGate (r, Z.of_nat j) (Some (Legacy.ident c))))
  /\ (forall q : Legacy.Qubit,
      Legacy.known (Legacy.regs c) q = true ->
      Legacy.z (Legacy.OneQubit q) c
      = ({| Legacy.ident := Legacy.ident c; Legacy.regs := Legacy.regs c;
            Legacy.data := Legacy.data c ++ [Legacy.ZGate q (Some (Legacy.ident c))] |},
         Returned (Legacy.AttachedGate (Legacy.ZGate q (Some (Legacy.ident c)))))).
Proof.
  split.
  - intros r Hreg.
    exists ((fun j => Legacy.ZGate (r, j) (Some (Legacy.ident c))) <$> range (Legacy.sz r)).
    split; [| split].
    + unfold Legacy.z.
      erewrite bind_returned; cycle 1.
      { apply z_loop; [exact Hreg |].
        apply Forall_forall. intros j Hj. apply range_bounds, Hj. }
      reflexivity.
    + rewrite length_fmap. apply range_length.
    + intros j Hj. rewrite list_lookup_fmap, range_lookup by exact Hj. reflexivity.
  - intros q Hq. unfold Legacy.z.
    erewrite bind_returned; cycle 1.
    { rewrite z_qubit_declared by exact Hq. apply attach_state. }
    reflexivity.
Qed.

Lemma z_register_and_qubit_witness :
  (exists gates : list Legacy.Gate,
      Legacy.z (Legacy.WholeRegister legacy_q) legacy_circuit
      = ({| Legacy.ident := 7; Legacy.regs := {["q" := 2]}; Legacy.data := [] ++ gates |},
         Returned (Legacy.GateSet gates))
      /\ length gates = 2
      /\ forall j : nat, j < 2 ->
           gates !! j = Some (Legacy.ZGate (legacy_q, Z.of_nat j) (Some 7)))
  /\ Legacy.z (Legacy.OneQubit (legacy_q, 1%Z)) legacy_circuit
     = ({| Legacy.ident := 7; Legacy.regs := {["q" := 2]};
           Legacy.data := [] ++ [Legacy.ZGate (legacy_q, 1%Z) (Some 7)] |},
        Returned (Legacy.AttachedGate (Legacy.ZGate (legacy_q, 1%Z) (Some 7)))).
Proof.
  split.
  - apply (proj1 (z_register_and_qubit legacy_circuit) legacy_q).
    vm_compute. reflexivity.
  - apply (proj2 (z_register_and_qubit legacy_circuit) (legacy_q, 1%Z)).
    vm_compute. reflexivity.
Defined.

(** ** iswap.py: the descriptor, its definition and its matrix *)

(** C6. The iSWAP descriptor has name ["iswap"], two qubits and no
    parameter; [_define] keeps these and stores as its definition exactly
    six triples over the fresh register [q = QuantumRegister(2, 'q')], in
    this order: (S,[q0],[]), (S,[q1],[]), (H,[q0],[]), (CX,[q0,q1],[]),
    (CX,[q1,q0],[]), (H,[q1],[]), each with no classical argument. *)
Theorem iswap_descriptor_and_definition :
  let q := Circuit.QuantumRegister 2 "q" in
  let q0 := Circuit.getitem q 0 in
  let q1 := Circuit.getitem q 1 in
  (Circuit.name Circuit.iSwapGate = "iswap"
   /\ Circuit.num_qubits Circuit.iSwapGate = 2
   /\ Circuit.params Circuit.iSwapGate = [])
  /\ (forall self : Circuit.Gate,
        Circuit.name (Circuit._define self) = Circuit.name self
        /\ Circuit.num_qubits (Circuit._define self) = Circuit.num_qubits self
        /\ Circuit.params (Circuit._define self) = Circuit.params self)
  /\ exists steps : list (Circuit.Gate * list Circuit.Bit * list Circuit.Bit),
       Circuit.definition (Circuit._define Circuit.iSwapGate) = Some steps
       /\ steps = [ (Circuit.SGate, [q0], []);
                    (Circuit.SGate, [q1], []);
                    (Circuit.HGate, [q0], []);
                    (Circuit.CXGate, [q0; q1], []);
                    (Circuit.CXGate, [q1; q0], []);
                    (Circuit.HGate, [q1], []) ]
       /\ length steps = 6
       /\ Forall (fun step => step.2 = []) steps.
Proof.
  intros q q0 q1. split; [| split].
  - repeat split.
  - intros self. repeat split.
  - eexists. split; [reflexivity |]. split; [reflexivity |]. split; [reflexivity |].
    repeat constructor.
Qed.

(** An operation with distinct, declared wires and the right number of
    arguments is added at the end. *)
Lemma append_returned (instruction : Circuit.Gate) (qargs cargs : list Circuit.Bit)
    (c : Circuit.QuantumCircuit) :
  NoDup (Circuit.wire <$> qargs) ->
  length qargs = Circuit.num_qubits instruction ->
  length cargs = Circuit.num_clbits instruction ->
  forallb (Circuit.known (Circuit.qregs c)) qargs = true ->
  forallb (Circuit.known (Circuit.cregs c)) cargs = true ->
  Circuit.append instruction qargs cargs c
  = ({| Circuit.qregs := Circuit.qregs c; Circuit.cregs := Circuit.cregs c;
        Circuit.data := Circuit.data c ++ [(instruction, qargs, cargs)] |},
     Returned (length (Circuit.data c))).
Proof.
  intros Hdup Hq Hc Hqk Hck. unfold Circuit.append.
  rewrite bool_decide_eq_true_2 by exact Hdup.
  rewrite Hq, Hc, !Nat.eqb_refl, Hqk, Hck. reflexivity.
Qed.

(** A sequence of such operations is added in order. *)
Lemma append_all (qr cr : gmap string nat)
    (steps : list (Circuit.Gate * list Circuit.Bit * list Circuit.Bit)) :
  Forall (fun step =>
            NoDup (Circuit.wire <$> step.1.2)
            /\ length step.1.2 = Circuit.num_qubits step.1.1
            /\ length step.2 = Circuit.num_clbits step.1.1
            /\ forallb (Circuit.known qr) step.1.2 = true
            /\ forallb (Circuit.known cr) step.2 = true) steps ->
  forall ops : list (Circuit.Gate * list Circuit.Bit * list Circuit.Bit),
    for_in steps tt
      (fun _ step => exec Circuit.append step.1.1 step.1.2 step.2; ret tt)
      {| Circuit.qregs := qr; Circuit.cregs := cr; Circuit.data := ops |}
    = ({| Circuit.qregs := qr; Circuit.cregs := cr; Circuit.data := ops ++ steps |},
       Returned tt).
Proof.
  induction steps as [| [[g qargs] cargs] steps IH]; intros Hsteps ops.
  - cbn. rewrite app_nil_r. reflexivity.
  - apply Forall_cons in Hsteps as [(Hdup & Hq & Hc & Hqk & Hck) Hsteps].
    cbn [for_in]. cbn [fst snd] in *.
    erewrite bind_returned; cycle 1.
    { erewrite bind_returned; [reflexivity |].
      apply append_returned; assumption. }
    cbn [Circuit.qregs Circuit.cregs Circuit.data].
    rewrite (IH Hsteps). rewrite <- app_assoc. reflexivity.
Qed.

(** The definition is well formed for the generic entry point: replayed
    step by step on any circuit that declares the register [q[2]],
    whatever else it declares or already holds, every [append] succeeds
    and the six operations are added at the end, in order. *)
Theorem iswap_definition_replays (c : Circuit.QuantumCircuit) :
  Circuit.qregs c !! "q" = Some 2 ->
  for_in (default [] (Circuit.definition (Circuit._define Circuit.iSwapGate))) tt
    (fun _ step => exec Circuit.append step.1.1 step.1.2 step.2; ret tt) c
  = ({| Circuit.qregs := Circuit.qregs c; Circuit.cregs := Circuit.cregs c;
        Circuit.data :=
          Circuit.data c
          ++ default [] (Circuit.definition (Circuit._define Circuit.iSwapGate)) |},
     Returned tt)
  /\ length (default [] (Circuit.definition (Circuit._define Circuit.iSwapGate))) = 6.
Proof.
  intros Hq. split; [| reflexivity].
  destruct c as [qr cr ops]. cbn [Circuit.qregs Circuit.cregs Circuit.data] in *.
  apply append_all. cbn [default Circuit.definition Circuit._define]. unfold id.
  assert (Hknown : forall i : Z, (0 <= i < 2)%Z ->
             Circuit.known qr (Circuit.getitem (Circuit.QuantumRegister 2 "q") i) = true).
  { intros i Hi. unfold Circuit.known. apply declared_true. cbn. split; [exact Hq | lia]. }
  assert (Hapart : Circuit.wire (Circuit.getitem (Circuit.QuantumRegister 2 "q") 0)
                   <> Circuit.wire (Circuit.getitem (Circuit.QuantumRegister 2 "q") 1))
    by discriminate.
  repeat match goal with
         | |- Forall _ (_ :: _) => constructor
         | |- Forall _ [] => constructor
         end;
    cbn [fst snd]; repeat split.
  all: try (cbn [forallb]; rewrite !Hknown by lia; reflexivity).
  all: cbn [fmap list_fmap]; try apply NoDup_singleton.
  all: apply NoDup_cons; split; [| apply NoDup_singleton].
  all: rewrite list_elem_of_singleton; congruence.
Qed.

Lemma iswap_definition_replays_witness :
  for_in (default [] (Circuit.definition (Circuit._define Circuit.iSwapGate))) tt
    (fun _ step => exec Circuit.append step.1.1 step.1.2 step.2; ret tt) q_circuit
  = ({| Circuit.qregs := Circuit.qregs q_circuit; Circuit.cregs := Circuit.cregs q_circuit;
        Circuit.data :=
          Circuit.data q_circuit
          ++ default [] (Circuit.definition (Circuit._define Circuit.iSwapGate)) |},
     Returned tt)
  /\ length (default [] (Circuit.definition (Circuit._define Circuit.iSwapGate))) = 6.
Proof.
  apply (iswap_definition_replays q_circuit). vm_compute. reflexivity.
Defined.

(** C10. [to_matrix] returns the 4x4 matrix with rows [1,0,0,0],
    [0,0,i,0], [0,i,0,0], [0,0,0,1], whatever gate object it is called on
    and with no circuit involved; every entry is one of the Gaussian
    integers 0, 1 and i. *)
Theorem iswap_to_matrix (self : Circuit.Gate) :
  let zero := {| Circuit.re := 0; Circuit.im := 0 |} in
  let one := {| Circuit.re := 1; Circuit.im := 0 |} in
  let i := {| Circuit.re := 0; Circuit.im := 1 |} in
  Circuit.to_matrix self = [ [one; zero; zero; zero];
                             [zero; zero; i; zero];
                             [zero; i; zero; zero];
                             [zero; zero; zero; one] ]
  /\ length (Circuit.to_matrix self) = 4
  /\ Forall (fun row => length row = 4) (Circuit.to_matrix self)
  /\ Forall (Forall (fun x => x = zero \/ x = one \/ x = i)) (Circuit.to_matrix self)
  /\ Circuit.to_matrix self = Circuit.to_matrix Circuit.iSwapGate.
Proof.
  intros zero one i. unfold Circuit.to_matrix.
  split; [reflexivity |]. split; [reflexivity |].
  split; [repeat constructor |].
  split; [| reflexivity].
  repeat match goal with |- Forall _ _ => constructor end;
    first [ left; reflexivity | right; left; reflexivity | right; right; reflexivity ].
Qed.

(** The matrix agrees with the class docstring: it is SWAP times the
    diagonal [1, i, i, 1], it is symmetric, and it is unitary. *)
Lemma iswap_matrix_docstring (self : Circuit.Gate) :
  Circuit.to_matrix self = Circuit.mmul Circuit.docstring_swap Circuit.docstring_diagonal
  /\ Circuit.transpose (Circuit.to_matrix self) = Circuit.to_matrix self
  /\ Circuit.mmul (Circuit.to_matrix self) (Circuit.dagger (Circuit.to_matrix self))
     = Circuit.identity4
  /\ Circuit.mmul (Circuit.dagger (Circuit.to_matrix self)) (Circuit.to_matrix self)
     = Circuit.identity4.
Proof.
  unfold Circuit.to_matrix. repeat split; vm_compute; reflexivity.
Qed.

(** ** deepest_path.py *)

(** The scenario of the specification: after [H] on [q0] and [CX] on
    [(q0, q1)], the longest path is [[H(q0), CX(q0, q1)]], and the DAG is
    the one that was queried. *)
Lemma scenario_longest_path :
  Transpiler.longest_path h_cx_dag = (h_cx_dag, Returned [h_node; cx_node]).
Proof. vm_compute. reflexivity. Qed.

Lemma longest_path_read_only : Transpiler.read_only Transpiler.longest_path.
Proof.
  intros d. unfold Transpiler.longest_path.
  destruct (Transpiler.topological_order _ _ _ _); reflexivity.
Qed.

(** A pass that declares nothing passes the pre-execution check. *)
Lemma analysis_pass_check (name : string)
    (body : M Transpiler.PassState (option Transpiler.DAGCircuit))
    (ps : gmap string Transpiler.PropertyValue) :
  Transpiler.check_requires (Transpiler.AnalysisPass name body) ps = Returned tt.
Proof. reflexivity. Qed.

(** What [run] does, by the outcome of [dag.longest_path()]. *)
Lemma run_returned (longest_path : M Transpiler.DAGCircuit (list Transpiler.DAGNode))
    (st : Transpiler.PassState) (d : Transpiler.DAGCircuit) (path : list Transpiler.DAGNode) :
  longest_path (Transpiler.dag st) = (d, Returned path) ->
  Transpiler.run longest_path st
  = ({| Transpiler.dag := d;
        Transpiler.property_set :=
          <["deepest_path" := Transpiler.NodeList path]> (Transpiler.property_set st) |},
     Returned None).
Proof.
  intros Hlp. unfold Transpiler.run, bind, Transpiler.on_dag. rewrite Hlp. reflexivity.
Qed.

Lemma run_raised (longest_path : M Transpiler.DAGCircuit (list Transpiler.DAGNode))
    (st : Transpiler.PassState) (d : Transpiler.DAGCircuit) (e : ErrorKind) :
  longest_path (Transpiler.dag st) = (d, Raised e) ->
  Transpiler.run longest_path st
  = ({| Transpiler.dag := d; Transpiler.property_set := Transpiler.property_set st |},
     Raised e).
Proof.
  intros Hlp. unfold Transpiler.run, bind, Transpiler.on_dag. rewrite Hlp. reflexivity.
Qed.

(** C1. When [dag.longest_path()] returns a sequence of nodes, [run]
    stores exactly that sequence under the Property Set key
    ["deepest_path"] and returns [None]; so does the framework's execution
    of the pass. *)
Theorem deepest_path_written
    (longest_path : M Transpiler.DAGCircuit (list Transpiler.DAGNode))
    (st : Transpiler.PassState) (d : Transpiler.DAGCircuit) (path : list Transpiler.DAGNode) :
  longest_path (Transpiler.dag st) = (d, Returned path) ->
  Transpiler.run longest_path st
  = ({| Transpiler.dag := d;
        Transpiler.property_set :=
          <["deepest_path" := Transpiler.NodeList path]> (Transpiler.property_set st) |},
     Returned None)
  /\ Transpiler.property_set (Transpiler.run longest_path st).1 !! "deepest_path"
     = Some (Transpiler.NodeList path)
  /\ Transpiler.property_set
       (Transpiler.execute_pass (Transpiler.DeepestPath longest_path) st).1 !! "deepest_path"
     = Some (Transpiler.NodeList path).
Proof.
  intros Hlp. pose proof (run_returned longest_path st d path Hlp) as Hrun.
  split; [exact Hrun |]. split.
  - rewrite Hrun. cbn. apply lookup_insert_eq.
  - unfold Transpiler.execute_pass, Transpiler.DeepestPath.
    rewrite analysis_pass_check. cbn [Transpiler.pass_run Transpiler.AnalysisPass].
    rewrite Hrun. cbn. apply lookup_insert_eq.
Qed.

Lemma deepest_path_written_witness :
  Transpiler.run Transpiler.longest_path fresh_state
  = ({| Transpiler.dag := h_cx_dag;
        Transpiler.property_set :=
          <["deepest_path" := Transpiler.NodeList [h_node; cx_node]]>
            (Transpiler.property_set fresh_state) |},
     Returned None)
  /\ Transpiler.property_set (Transpiler.run Transpiler.longest_path fresh_state).1
       !! "deepest_path"
     = Some (Transpiler.NodeList [h_node; cx_node])
  /\ Transpiler.property_set
       (Transpiler.execute_pass (Transpiler.DeepestPath Transpiler.longest_path)
          fresh_state).1 !! "deepest_path"
     = Some (Transpiler.NodeList [h_node; cx_node]).
Proof.
  apply (deepest_path_written Transpiler.longest_path fresh_state h_cx_dag [h_node; cx_node]).
  vm_compute. reflexivity.
Defined.

(** When [dag.longest_path()] raises, [run] raises the same error and
    writes nothing. *)
Lemma deepest_path_failure
    (longest_path : M Transpiler.DAGCircuit (list Transpiler.DAGNode))
    (st : Transpiler.PassState) (d : Transpiler.DAGCircuit) (e : ErrorKind) :
  longest_path (Transpiler.dag st) = (d, Raised e) ->
  (Transpiler.run longest_path st).2 = Raised e
  /\ Transpiler.property_set (Transpiler.run longest_path st).1 = Transpiler.property_set st
  /\ Transpiler.execute_pass (Transpiler.DeepestPath longest_path) st
     = (st, Raised (PassExecutionError "DeepestPath" e)).
Proof.
  intros Hlp. pose proof (run_raised longest_path st d e Hlp) as Hrun.
  split; [| split].
  - rewrite Hrun. reflexivity.
  - rewrite Hrun. reflexivity.
  - unfold Transpiler.execute_pass, Transpiler.DeepestPath.
    rewrite analysis_pass_check. cbn [Transpiler.pass_run Transpiler.AnalysisPass].
    rewrite Hrun. reflexivity.
Qed.

(** C2. With [longest_path] a query that only reads the DAG, [run] leaves
    the DAG of the pass state as it was and returns no replacement DAG
    (its return value is [None]); the framework's execution of the pass as
    an analysis pass keeps the same current DAG; and every Property Set key
    other than ["deepest_path"] keeps its value. *)
Theorem deepest_path_read_only
    (longest_path : M Transpiler.DAGCircuit (list Transpiler.DAGNode))
    (st : Transpiler.PassState) :
  Transpiler.read_only longest_path ->
  Transpiler.dag (Transpiler.run longest_path st).1 = Transpiler.dag st
  /\ (forall r : option Transpiler.DAGCircuit,
        (Transpiler.run longest_path st).2 = Returned r -> r = None)
  /\ Transpiler.dag (Transpiler.execute_pass (Transpiler.DeepestPath longest_path) st).1
     = Transpiler.dag st
  /\ (forall key : string, key <> "deepest_path" ->
        Transpiler.property_set (Transpiler.run longest_path st).1 !! key
        = Transpiler.property_set st !! key).
Proof.
  intros Hro. specialize (Hro (Transpiler.dag st)).
  unfold Transpiler.execute_pass, Transpiler.DeepestPath.
  rewrite analysis_pass_check. cbn [Transpiler.pass_run Transpiler.AnalysisPass].
  destruct (longest_path (Transpiler.dag st)) as [d [e | path]] eqn:Hlp; cbn in Hro; subst d.
  - rewrite (run_raised _ _ _ _ Hlp). cbn.
    split; [reflexivity |]. split; [intros r Hr; discriminate Hr |].
    split; [reflexivity |]. intros key Hkey. reflexivity.
  - rewrite (run_returned _ _ _ _ Hlp). cbn.
    split; [reflexivity |]. split; [intros r Hr; injection Hr as <-; reflexivity |].
    split; [reflexivity |]. intros key Hkey. apply lookup_insert_ne. congruence.
Qed.

Lemma deepest_path_read_only_witness :
  Transpiler.dag (Transpiler.run Transpiler.longest_path fresh_state).1 = h_cx_dag
  /\ (forall r : option Transpiler.DAGCircuit,
        (Transpiler.run Transpiler.longest_path fresh_state).2 = Returned r -> r = None)
  /\ Transpiler.dag
       (Transpiler.execute_pass (Transpiler.DeepestPath Transpiler.longest_path)
          fresh_state).1 = h_cx_dag
  /\ (forall key : string, key <> "deepest_path" ->
        Transpiler.property_set (Transpiler.run Transpiler.longest_path fresh_state).1 !! key
        = (∅ : gmap string Transpiler.PropertyValue) !! key).
Proof.
  apply (deepest_path_read_only Transpiler.longest_path fresh_state).
  exact longest_path_read_only.
Defined.

(** C7. [DeepestPath] declares no required property: for every state of
    the Property Set the pre-execution check succeeds, and executing the
    pass never ends in [MissingPropertyError]. *)
Theorem deepest_path_requires_nothing
    (longest_path : M Transpiler.DAGCircuit (list Transpiler.DAGNode))
    (st : Transpiler.PassState) :
  Transpiler.requires (Transpiler.DeepestPath longest_path) = []
  /\ Transpiler.check_requires (Transpiler.DeepestPath longest_path)
       (Transpiler.property_set st) = Returned tt
  /\ (Transpiler.execute_pass (Transpiler.DeepestPath longest_path) st).2
     <> Raised MissingPropertyError.
Proof.
  split; [reflexivity |]. split; [apply analysis_pass_check |].
  unfold Transpiler.execute_pass, Transpiler.DeepestPath.
  rewrite analysis_pass_check. cbn [Transpiler.pass_run Transpiler.AnalysisPass].
  destruct (Transpiler.run longest_path st) as [st' [e | r]]; cbn; discriminate.
Qed.

(** The check is not vacuous: a pass that requires ["deepest_path"] fails
    with [MissingPropertyError] when run first, and passes the check once
    [DeepestPath] has run. *)
Lemma required_property_scenario :
  Transpiler.execute_pass needs_deepest_path fresh_state
  = (fresh_state, Raised MissingPropertyError)
  /\ Transpiler.check_requires needs_deepest_path
       (Transpiler.property_set
          (Transpiler.execute_pass (Transpiler.DeepestPath Transpiler.longest_path)
             fresh_state).1)
     = Returned tt.
Proof. split; vm_compute; reflexivity. Qed.

(** ** Further properties of the embedded code *)

(** [z] on a register that the circuit did not declare: the first qubit
    already fails the check, so nothing is attached; a register of size
    zero has no qubit to check and gives the empty [InstructionSet]. *)
Lemma z_register_undeclared (r : Legacy.QuantumRegister) (c : Legacy.QuantumCircuit) :
  Legacy.regs c !! Legacy.name r <> Some (Legacy.sz r) ->
  Legacy.z (Legacy.WholeRegister r) c
  = (c, match Legacy.sz r with
        | 0 => Returned (Legacy.GateSet [])
        | S _ => Raised UnknownWireError
        end).
Proof.
  intros Hreg. unfold Legacy.z. destruct (Legacy.sz r) as [| n] eqn:Hsz.
  - reflexivity.
  - apply bind_raised. unfold range. cbn [seq fmap list_fmap for_in].
    apply bind_raised, bind_raised, z_qubit_undeclared.
    unfold Legacy.known, declared. cbn [fst snd].
    rewrite bool_decide_eq_false_2; [reflexivity |].
    rewrite Hsz. exact Hreg.
Qed.

Lemma z_register_undeclared_example :
  Legacy.z (Legacy.WholeRegister legacy_r) legacy_circuit
  = (legacy_circuit, Raised UnknownWireError).
Proof.
  apply (z_register_undeclared legacy_r legacy_circuit).
  vm_compute. discriminate.
Defined.

(** A cyclic graph makes [longest_path] signal [InvariantViolationError];
    the pass then fails, nothing is written, and the framework reports the
    pass and the error. *)
Lemma deepest_path_failure_example :
  let st := {| Transpiler.dag := cyclic_dag; Transpiler.property_set := ∅ |} in
  (Transpiler.run Transpiler.longest_path st).2 = Raised InvariantViolationError
  /\ Transpiler.property_set (Transpiler.run Transpiler.longest_path st).1 = ∅
  /\ Transpiler.execute_pass (Transpiler.DeepestPath Transpiler.longest_path) st
     = (st, Raised (PassExecutionError "DeepestPath" InvariantViolationError)).
Proof.
  apply (deepest_path_failure Transpiler.longest_path
           {| Transpiler.dag := cyclic_dag; Transpiler.property_set := ∅ |}
           cyclic_dag InvariantViolationError).
  vm_compute. reflexivity.
Defined.

(** ** Strings: decimal formatting and splitting at a separator *)

Lemma has_char_app (c : Ascii.ascii) (s t : string) :
  has_char c (s +:+ t) = has_char c s || has_char c t.
Proof.
  induction s as [| a s IH]; simpl; [reflexivity |].
  rewrite IH. apply orb_assoc.
Qed.

(** Two strings cut at the first occurrence of [c] agree part by part. *)
Lemma split_at_first (c : Ascii.ascii) (s1 s2 r1 r2 : string) :
  has_char c s1 = false -> has_char c s2 = false ->
  s1 +:+ String c r1 = s2 +:+ String c r2 ->
  s1 = s2 /\ r1 = r2.
Proof.
  revert s2. induction s1 as [| a s1 IH]; intros [| b s2] H1 H2 Heq; cbn in *.
  - injection Heq as ->. split; reflexivity.
  - injection Heq as <- _. rewrite Ascii.eqb_refl in H2. discriminate H2.
  - injection Heq as -> _. rewrite Ascii.eqb_refl in H1. discriminate H1.
  - injection Heq as -> Heq.
    apply orb_false_iff in H1 as [_ H1]. apply orb_false_iff in H2 as [_ H2].
    destruct (IH s2 H1 H2 Heq) as [-> ->]. split; reflexivity.
Qed.

(** Two strings cut at the last occurrence of [c] agree part by part. *)
Lemma split_at_last (c : Ascii.ascii) (s1 s2 r1 r2 : string) :
  has_char c r1 = false -> has_char c r2 = false ->
  s1 +:+ String c r1 = s2 +:+ String c r2 ->
  s1 = s2 /\ r1 = r2.
Proof.
  intros H1 H2. revert s2.
  induction s1 as [| a s1 IH]; intros [| b s2] Heq; cbn in *.
  - injection Heq as ->. split; reflexivity.
  - injection Heq as <- Heq. rewrite Heq, has_char_app in H1. cbn in H1.
    rewrite Ascii.eqb_refl, orb_true_r in H1. discriminate H1.
  - injection Heq as -> Heq. rewrite <- Heq, has_char_app in H2. cbn in H2.
    rewrite Ascii.eqb_refl, orb_true_r in H2. discriminate H2.
  - injection Heq as -> Heq.
    destruct (IH s2 Heq) as [-> ->]. split; reflexivity.
Qed.

(** Only digits and the sign occur in a formatted number. *)
Lemma format_d_chars (c : Ascii.ascii) (n : Z) :
  has_char c "0123456789-" = false -> has_char c (format_d n) = false.
Proof.
  intros Hc. cbn in Hc. repeat (apply orb_false_iff in Hc as [? Hc]).
  assert (Hdigits : forall d, has_char c (DecimalString.NilEmpty.string_of_uint d) = false).
  { induction d as [| d IH | d IH | d IH | d IH | d IH | d IH | d IH | d IH | d IH | d IH];
      cbn; [reflexivity | ..]; rewrite IH, orb_false_r; assumption. }
  assert (Hzero : forall d, has_char c (DecimalString.NilZero.string_of_uint d) = false).
  { intros [| d | d | d | d | d | d | d | d | d | d];
      [cbn; rewrite orb_false_r; assumption | ..]; apply Hdigits. }
  unfold format_d. destruct (Z.to_int n) as [d | d]; cbn.
  - apply Hzero.
  - rewrite Hzero, orb_false_r. assumption.
Qed.

(** Formatting loses nothing: the text determines the number. *)
Lemma format_d_inj (a b : Z) : format_d a = format_d b -> a = b.
Proof.
  unfold format_d. intros Heq.
  assert (Hparse : forall n,
             DecimalString.NilZero.int_of_string
               (DecimalString.NilZero.string_of_int (Z.to_int n)) = Some (Z.to_int n)).
  { intros n. apply DecimalString.NilZero.isi; destruct n as [| p | p]; cbn;
      try discriminate; intros [= Hnil]; exact (DecimalPos.Unsigned.to_uint_nonnil p Hnil). }
  pose proof (Hparse a) as Ha. rewrite Heq, Hparse in Ha. injection Ha as Hab.
  rewrite <- (DecimalZ.of_to a), <- (DecimalZ.of_to b), Hab. reflexivity.
Qed.

Lemma format_d_no_open (n : Z) (rest : string) :
  has_char "["%char rest = false -> has_char "["%char (format_d n +:+ rest) = false.
Proof.
  intros Hrest. rewrite has_char_app, Hrest, format_d_chars; reflexivity.
Qed.

Lemma format_d_no_close (n : Z) : has_char "]"%char (format_d n) = false.
Proof. apply format_d_chars. reflexivity. Qed.

(** ** qasm (cy.py, z.py) *)

(** The text of a [ZGate] tells its wire: two gates with the same OPENQASM
    text act on the same register name and index, whatever the register
    names are, as long as [_qasmif] keeps distinct lines distinct. *)
Theorem z_qasm_unambiguous (_qasmif : Legacy.Gate -> string -> string)
    (q q' : Legacy.Qubit) (circ circ' : option nat) :
  (forall s s' : string,
      _qasmif (Legacy.ZGate q circ) s = _qasmif (Legacy.ZGate q' circ') s' -> s = s') ->
  Legacy.ZGate_qasm _qasmif (Legacy.ZGate q circ)
  = Legacy.ZGate_qasm _qasmif (Legacy.ZGate q' circ') ->
  Legacy.wire q = Legacy.wire q'.
Proof.
  intros Hinj Heq. cbn in Heq. injection Heq as Heq. apply Hinj in Heq.
  unfold Legacy.z_line in Heq. simpl in Heq. injection Heq as Heq.
  apply split_at_last in Heq as [Hname Hidx];
    [| apply format_d_no_open; reflexivity ..].
  apply split_at_first in Hidx as [Hidx _]; [| apply format_d_no_close ..].
  apply format_d_inj in Hidx. unfold Legacy.wire. congruence.
Qed.

Lemma z_qasm_unambiguous_witness :
  Legacy.wire (legacy_q, 1%Z) = Legacy.wire ({| Legacy.name := "q"; Legacy.sz := 5 |}, 1%Z).
Proof.
  apply (z_qasm_unambiguous (fun _ line => line)
           (legacy_q, 1%Z) ({| Legacy.name := "q"; Legacy.sz := 5 |}, 1%Z) (Some 7) None).
  - intros s s' Hs. exact Hs.
  - vm_compute. reflexivity.
Defined.

(** The text of a [CyGate] tells its two wires when the name of the control
    register holds no ["["]: two such gates with the same OPENQASM text
    have the same control and the same target (register name and index). *)
Theorem cy_qasm_unambiguous (_qasmif : Legacy.Gate -> string -> string)
    (ctl tgt ctl' tgt' : Legacy.Qubit) (circ circ' : option nat) :
  has_char "[" (Legacy.name ctl.1) = false ->
  has_char "[" (Legacy.name ctl'.1) = false ->
  (forall s s' : string,
      _qasmif (Legacy.CyGate ctl tgt circ) s = _qasmif (Legacy.CyGate ctl' tgt' circ') s'
      -> s = s') ->
  Legacy.CyGate_qasm _qasmif (Legacy.CyGate ctl tgt circ)
  = Legacy.CyGate_qasm _qasmif (Legacy.CyGate ctl' tgt' circ') ->
  Legacy.wire ctl = Legacy.wire ctl' /\ Legacy.wire tgt = Legacy.wire tgt'.
Proof.
  intros Hctl Hctl' Hinj Heq. cbn in Heq. injection Heq as Heq. apply Hinj in Heq.
  unfold Legacy.cy_line in Heq. simpl in Heq. injection Heq as Heq.
  apply split_at_first in Heq as [Hname1 Heq]; [| assumption ..].
  apply split_at_first in Heq as [Hidx1 Heq]; [| apply format_d_no_close ..].
  injection Heq as Heq.
  apply split_at_last in Heq as [Hname2 Heq];
    [| apply format_d_no_open; reflexivity ..].
  apply split_at_first in Heq as [Hidx2 _]; [| apply format_d_no_close ..].
  apply format_d_inj in Hidx1, Hidx2. unfold Legacy.wire. split; congruence.
Qed.

Lemma cy_qasm_unambiguous_witness :
  Legacy.wire (legacy_q, 0%Z) = Legacy.wire ({| Legacy.name := "q"; Legacy.sz := 5 |}, 0%Z)
  /\ Legacy.wire (legacy_q, 1%Z) = Legacy.wire ({| Legacy.name := "q"; Legacy.sz := 5 |}, 1%Z).
Proof.
  apply (cy_qasm_unambiguous (fun _ line => line)
           (legacy_q, 0%Z) (legacy_q, 1%Z)
           ({| Legacy.name := "q"; Legacy.sz := 5 |}, 0%Z)
           ({| Legacy.name := "q"; Legacy.sz := 5 |}, 1%Z) (Some 7) None).
  - vm_compute. reflexivity.
  - vm_compute. reflexivity.
  - intros s s' Hs. exact Hs.
  - vm_compute. reflexivity.
Defined.

(** The condition on the register name is needed: with brackets in the
    names, two different pairs of qubits give the same text. *)
Lemma cy_qasm_ambiguous_names :
  let a := {| Legacy.name := "a"; Legacy.sz := 4 |} in
  let c := {| Legacy.name := "c"; Legacy.sz := 4 |} in
  let a1b := {| Legacy.name := "a[1],b"; Legacy.sz := 4 |} in
  let b2c := {| Legacy.name := "b[2],c"; Legacy.sz := 4 |} in
  Legacy.cy_line (a1b, 2%Z) (c, 3%Z) = "cy a[1],b[2],c[3];"
  /\ Legacy.cy_line (a, 1%Z) (b2c, 3%Z) = "cy a[1],b[2],c[3];".
Proof. split; vm_compute; reflexivity. Qed.

(** ** What cy and z do to the circuit, on every input *)

Lemma cy_outcome (ctl tgt : Legacy.Qubit) (c : Legacy.QuantumCircuit) :
  Legacy.cy ctl tgt c
  = if negb (Legacy.known (Legacy.regs c) ctl && Legacy.known (Legacy.regs c) tgt)
    then (c, Raised UnknownWireError)
    else if negb (bool_decide (NoDup (Legacy.wire <$> [ctl; tgt])))
    then (c, Raised DuplicateWireArgumentError)
    else Legacy._attach (Legacy.CyGate ctl tgt (Some (Legacy.ident c))) c.
Proof.
  destruct (Legacy.known (Legacy.regs c) ctl) eqn:Hctl; cbn [andb negb];
    [| apply cy_undeclared; left; exact Hctl].
  destruct (Legacy.known (Legacy.regs c) tgt) eqn:Htgt; cbn [andb negb];
    [| apply cy_undeclared; right; exact Htgt].
  destruct (bool_decide (NoDup (Legacy.wire <$> [ctl; tgt]))) eqn:Hdup; cbn [negb].
  - apply cy_checks_passed.
    + apply check_qubit_declared, Hctl.
    + apply check_qubit_declared, Htgt.
    + unfold Legacy._check_dups. rewrite Hdup. reflexivity.
  - unfold Legacy.cy.
    rewrite (bind_returned _ _ c c tt) by (apply check_qubit_declared, Hctl).
    rewrite (bind_returned _ _ c c tt) by (apply check_qubit_declared, Htgt).
    apply bind_raised. unfold Legacy._check_dups. rewrite Hdup. reflexivity.
Qed.

Lemma z_qubit_outcome (q : Legacy.Qubit) (c : Legacy.QuantumCircuit) :
  Legacy.z_qubit q c
  = if Legacy.known (Legacy.regs c) q
    then Legacy._attach (Legacy.ZGate q (Some (Legacy.ident c))) c
    else (c, Raised UnknownWireError).
Proof.
  destruct (Legacy.known (Legacy.regs c) q) eqn:Hq.
  - apply z_qubit_declared, Hq.
  - apply z_qubit_undeclared, Hq.
Qed.

(** What a successful [cy] tells about its arguments and its result. *)
Lemma cy_returned_inv (ctl tgt : Legacy.Qubit) (c c' : Legacy.QuantumCircuit) (g : Legacy.Gate) :
  Legacy.cy ctl tgt c = (c', Returned g) ->
  NoDup (Legacy.wire <$> [ctl; tgt]) /\ g = Legacy.CyGate ctl tgt (Some (Legacy.ident c)).
Proof.
  rewrite cy_outcome.
  destruct (negb _); [discriminate |].
  destruct (bool_decide (NoDup (Legacy.wire <$> [ctl; tgt]))) eqn:Hdup; cbn [negb];
    [| discriminate].
  apply bool_decide_eq_true in Hdup. unfold Legacy._attach. intros [= _ <-].
  split; [exact Hdup | reflexivity].
Qed.

(** A loop keeps whatever every run of its body keeps. *)
Lemma for_in_invariant {S A B : Type} (P : S -> Prop) (body : B -> A -> M S B) :
  (forall acc x s, P s -> P (body acc x s).1) ->
  forall xs acc s, P s -> P (for_in xs acc body s).1.
Proof.
  intros Hbody. induction xs as [| x xs IH]; intros acc s Hs; cbn [for_in].
  - exact Hs.
  - unfold bind. specialize (Hbody acc x s Hs).
    destruct (body acc x s) as [s' [e | acc']]; cbn in *.
    + exact Hbody.
    + apply IH, Hbody.
Qed.

Lemma bind_ret_state {S A B : Type} (m : M S A) (f : A -> B) (s : S) :
  (bind m (fun a => ret (f a)) s).1 = (m s).1.
Proof. unfold bind, ret. destruct (m s) as [s' [e | a]]; reflexivity. Qed.

(** Whatever holds of the circuit and is kept by attaching one [ZGate]
    on a declared qubit is kept by [z], on every argument. *)
Lemma z_keeps (P : Legacy.QuantumCircuit -> Prop) :
  (forall q s, P s -> Legacy.known (Legacy.regs s) q = true ->
               P (Legacy._attach (Legacy.ZGate q (Some (Legacy.ident s))) s).1) ->
  forall a c, P c -> P (Legacy.z a c).1.
Proof.
  intros Hattach.
  assert (Hqubit : forall q s, P s -> P (Legacy.z_qubit q s).1).
  { intros q s Hs. rewrite z_qubit_outcome.
    destruct (Legacy.known (Legacy.regs s) q) eqn:Hq; [apply Hattach; assumption | exact Hs]. }
  intros [r | q] c Hc; unfold Legacy.z; rewrite bind_ret_state.
  - apply for_in_invariant; [| exact Hc].
    intros acc j s Hs. rewrite bind_ret_state. apply Hqubit, Hs.
  - apply Hqubit, Hc.
Qed.

(** [cy] and [z] keep the circuit well formed: after the call, failed or
    not, every attached gate still acts on declared wires, no wire twice. *)
Theorem well_formed_preserved (c : Legacy.QuantumCircuit) :
  Legacy.well_formed c ->
  (forall ctl tgt : Legacy.Qubit, Legacy.well_formed (Legacy.cy ctl tgt c).1)
  /\ (forall a : Legacy.ZArg, Legacy.well_formed (Legacy.z a c).1).
Proof.
  intros Hwf. split.
  - intros ctl tgt. rewrite cy_outcome.
    destruct (Legacy.known (Legacy.regs c) ctl) eqn:Hctl; cbn [andb negb]; [| exact Hwf].
    destruct (Legacy.known (Legacy.regs c) tgt) eqn:Htgt; cbn [andb negb]; [| exact Hwf].
    destruct (bool_decide (NoDup (Legacy.wire <$> [ctl; tgt]))) eqn:Hdup; cbn [negb];
      [| exact Hwf].
    apply bool_decide_eq_true in Hdup.
    unfold Legacy.well_formed in *. cbn. apply Forall_app. split; [exact Hwf |].
    apply Forall_singleton. split; [| exact Hdup].
    cbn. apply Forall_cons. split; [exact Hctl |]. apply Forall_singleton. exact Htgt.
  - intros a. apply z_keeps; [| exact Hwf].
    intros q s Hs Hq. unfold Legacy.well_formed in *. cbn.
    apply Forall_app. split; [exact Hs |].
    apply Forall_singleton. cbn. split; [apply Forall_singleton; exact Hq |].
    apply NoDup_singleton.
Qed.

Lemma well_formed_preserved_witness :
  (forall ctl tgt : Legacy.Qubit, Legacy.well_formed (Legacy.cy ctl tgt legacy_circuit_cy).1)
  /\ (forall a : Legacy.ZArg, Legacy.well_formed (Legacy.z a legacy_circuit_cy).1).
Proof.
  apply (well_formed_preserved legacy_circuit_cy).
  unfold Legacy.well_formed. vm_compute Legacy.data.
  apply Forall_singleton. split.
  - apply Forall_cons. split; [vm_compute; reflexivity |].
    apply Forall_singleton. vm_compute. reflexivity.
  - apply (bool_decide_eq_true_1 _). vm_compute. reflexivity.
Defined.

(** [cy] and [z] only ever add gates at the end: on every input, failed
    or not, the circuit keeps its identity and its registers, and the gates
    it held before come first in [data], in the same order. *)
Theorem gates_only_appended (c : Legacy.QuantumCircuit) :
  (forall ctl tgt : Legacy.Qubit, exists new : list Legacy.Gate,
      (Legacy.cy ctl tgt c).1
      = {| Legacy.ident := Legacy.ident c; Legacy.regs := Legacy.regs c;
           Legacy.data := Legacy.data c ++ new |})
  /\ (forall a : Legacy.ZArg, exists new : list Legacy.Gate,
      (Legacy.z a c).1
      = {| Legacy.ident := Legacy.ident c; Legacy.regs := Legacy.regs c;
           Legacy.data := Legacy.data c ++ new |}).
Proof.
  assert (Hsame : c = {| Legacy.ident := Legacy.ident c; Legacy.regs := Legacy.regs c;
                         Legacy.data := Legacy.data c ++ [] |}).
  { rewrite app_nil_r. destruct c; reflexivity. }
  split.
  - intros ctl tgt. rewrite cy_outcome.
    destruct (negb _); [exists []; exact Hsame |].
    destruct (negb _); [exists []; exact Hsame |].
    eexists. reflexivity.
  - intros a.
    apply (z_keeps (fun s => exists new,
              s = {| Legacy.ident := Legacy.ident c; Legacy.regs := Legacy.regs c;
                     Legacy.data := Legacy.data c ++ new |})).
    + intros q s [new ->] _. cbn. eexists. rewrite <- app_assoc. reflexivity.
    + exists []. exact Hsame.
Qed.

(** ** reapply (cy.py, z.py) *)

(** A gate that [cy] attached to one circuit can be re-applied to any
    circuit that declares its two qubits: the duplicate check cannot fail,
    the target circuit gets a gate with the same name, parameters and
    arguments (owned by the target circuit) at its end, and that gate is
    what [_modifiers] receives. *)
Theorem cy_reapply_copies
    (_modifiers : Legacy.Gate -> Legacy.ZResult -> M Legacy.QuantumCircuit unit)
    (ctl tgt : Legacy.Qubit) (c1 c1' c2 : Legacy.QuantumCircuit) (g : Legacy.Gate) :
  Legacy.cy ctl tgt c1 = (c1', Returned g) ->
  Legacy.known (Legacy.regs c2) ctl = true ->
  Legacy.known (Legacy.regs c2) tgt = true ->
  exists (body : M Legacy.QuantumCircuit unit) (copy : Legacy.Gate),
    Legacy.CyGate_reapply _modifiers g = Some body
    /\ body c2
       = _modifiers g (Legacy.AttachedGate copy)
           {| Legacy.ident := Legacy.ident c2; Legacy.regs := Legacy.regs c2;
              Legacy.data := Legacy.data c2 ++ [copy] |}
    /\ Legacy.gate_name copy = Legacy.gate_name g
    /\ Legacy.param copy = Legacy.param g
    /\ Legacy.arg copy = Legacy.arg g
    /\ Legacy.circuit copy = Some (Legacy.ident c2).
Proof.
  intros Hcy Hctl Htgt. apply cy_returned_inv in Hcy as [Hdup ->].
  eexists. exists (Legacy.CyGate ctl tgt (Some (Legacy.ident c2))).
  split; [reflexivity |]. split; [| repeat split].
  cbn beta. erewrite bind_returned; [reflexivity |].
  rewrite cy_outcome, Hctl, Htgt. cbn [andb negb].
  rewrite bool_decide_eq_true_2 by exact Hdup. reflexivity.
Qed.

Lemma cy_reapply_copies_witness :
  exists (body : M Legacy.QuantumCircuit unit) (copy : Legacy.Gate),
    Legacy.CyGate_reapply (fun _ _ => ret tt)
      (Legacy.CyGate (legacy_q, 0%Z) (legacy_q, 1%Z) (Some 7)) = Some body
    /\ body other_circuit
       = ret tt {| Legacy.ident := 8; Legacy.regs := {["q" := 2]};
                   Legacy.data := [] ++ [copy] |}
    /\ Legacy.gate_name copy = "cy"
    /\ Legacy.param copy = []
    /\ Legacy.arg copy = [(legacy_q, 0%Z); (legacy_q, 1%Z)]
    /\ Legacy.circuit copy = Some 8.
Proof.
  apply (cy_reapply_copies (fun _ _ => ret tt) (legacy_q, 0%Z) (legacy_q, 1%Z)
           legacy_circuit legacy_circuit_cy other_circuit).
  - vm_compute. reflexivity.
  - vm_compute. reflexivity.
  - vm_compute. reflexivity.
Defined.

(** The same for a gate that [z] attached to a single qubit. *)
Theorem z_reapply_copies
    (_modifiers : Legacy.Gate -> Legacy.ZResult -> M Legacy.QuantumCircuit unit)
    (q : Legacy.Qubit) (c1 c1' c2 : Legacy.QuantumCircuit) (g : Legacy.Gate) :
  Legacy.z (Legacy.OneQubit q) c1 = (c1', Returned (Legacy.AttachedGate g)) ->
  Legacy.known (Legacy.regs c2) q = true ->
  exists (body : M Legacy.QuantumCircuit unit) (copy : Legacy.Gate),
    Legacy.ZGate_reapply _modifiers g = Some body
    /\ body c2
       = _modifiers g (Legacy.AttachedGate copy)
           {| Legacy.ident := Legacy.ident c2; Legacy.regs := Legacy.regs c2;
              Legacy.data := Legacy.data c2 ++ [copy] |}
    /\ Legacy.gate_name copy = Legacy.gate_name g
    /\ Legacy.param copy = Legacy.param g
    /\ Legacy.arg copy = Legacy.arg g
    /\ Legacy.circuit copy = Some (Legacy.ident c2).
Proof.
  intros Hz Hq.
  assert (Hg : g = Legacy.ZGate q (Some (Legacy.ident c1))).
  { unfold Legacy.z, bind in Hz. rewrite z_qubit_outcome in Hz.
    destruct (Legacy.known (Legacy.regs c1) q); [| discriminate Hz].
    cbn in Hz. injection Hz as _ <-. reflexivity. }
  subst g. eexists. exists (Legacy.ZGate q (Some (Legacy.ident c2))).
  split; [reflexivity |]. split; [| repeat split].
  cbn beta. erewrite bind_returned; [reflexivity |].
  unfold Legacy.z. erewrite bind_returned; [reflexivity |].
  rewrite z_qubit_outcome, Hq. reflexivity.
Qed.

Lemma z_reapply_copies_witness :
  exists (body : M Legacy.QuantumCircuit unit) (copy : Legacy.Gate),
    Legacy.ZGate_reapply (fun _ _ => ret tt) (Legacy.ZGate (legacy_q, 1%Z) (Some 7)) = Some body
    /\ body other_circuit
       = ret tt {| Legacy.ident := 8; Legacy.regs := {["q" := 2]};
                   Legacy.data := [] ++ [copy] |}
    /\ Legacy.gate_name copy = "z"
    /\ Legacy.param copy = []
    /\ Legacy.arg copy = [(legacy_q, 1%Z)]
    /\ Legacy.circuit copy = Some 8.
Proof.
  apply (z_reapply_copies (fun _ _ => ret tt) (legacy_q, 1%Z)
           legacy_circuit
           (Legacy.z (Legacy.OneQubit (legacy_q, 1%Z)) legacy_circuit).1 other_circuit).
  - vm_compute. reflexivity.
  - vm_compute. reflexivity.
Defined.

(** Re-applying a gate to a circuit that lacks one of its qubits raises
    [UnknownWireError] and leaves that circuit as it was; [_modifiers] is
    never reached, whatever it would do. *)
Theorem reapply_rejected
    (_modifiers : Legacy.Gate -> Legacy.ZResult -> M Legacy.QuantumCircuit unit)
    (ctl tgt : Legacy.Qubit) (circ : option nat) (c : Legacy.QuantumCircuit) :
  (Legacy.known (Legacy.regs c) ctl = false \/ Legacy.known (Legacy.regs c) tgt = false ->
   exists body : M Legacy.QuantumCircuit unit,
     Legacy.CyGate_reapply _modifiers (Legacy.CyGate ctl tgt circ) = Some body
     /\ body c = (c, Raised UnknownWireError))
  /\ (Legacy.known (Legacy.regs c) ctl = false ->
      exists body : M Legacy.QuantumCircuit unit,
        Legacy.ZGate_reapply _modifiers (Legacy.ZGate ctl circ) = Some body
        /\ body c = (c, Raised UnknownWireError)).
Proof.
  split.
  - intros Hbad. eexists. split; [reflexivity |].
    cbn beta. apply bind_raised, cy_undeclared, Hbad.
  - intros Hbad. eexists. split; [reflexivity |].
    cbn beta. apply bind_raised. unfold Legacy.z.
    apply bind_raised, z_qubit_undeclared, Hbad.
Qed.

Lemma reapply_rejected_witness :
  (exists body : M Legacy.QuantumCircuit unit,
      Legacy.CyGate_reapply (fun _ _ => ret tt)
        (Legacy.CyGate (legacy_q, 0%Z) (legacy_q, 1%Z) (Some 7)) = Some body
      /\ body bare_circuit = (bare_circuit, Raised UnknownWireError))
  /\ (exists body : M Legacy.QuantumCircuit unit,
      Legacy.ZGate_reapply (fun _ _ => ret tt) (Legacy.ZGate (legacy_q, 0%Z) (Some 7))
      = Some body
      /\ body bare_circuit = (bare_circuit, Raised UnknownWireError)).
Proof.
  pose proof (reapply_rejected (fun _ _ => ret tt) (legacy_q, 0%Z) (legacy_q, 1%Z)
                (Some 7) bare_circuit) as [Hcy Hz].
  split.
  - apply Hcy. left. vm_compute. reflexivity.
  - apply Hz. vm_compute. reflexivity.
Defined.

(** ** deepest_path.py: running the pass again *)

(** With [longest_path] a read-only query, running the pass a second time
    changes nothing: same DAG, same Property Set, same outcome as the
    first run. *)
Theorem run_idempotent
    (longest_path : M Transpiler.DAGCircuit (list Transpiler.DAGNode))
    (st : Transpiler.PassState) :
  Transpiler.read_only longest_path ->
  Transpiler.run longest_path (Transpiler.run longest_path st).1
  = Transpiler.run longest_path st.
Proof.
  intros Hro. destruct st as [d0 ps]. specialize (Hro d0).
  destruct (longest_path d0) as [d [e | path]] eqn:Hlp; cbn in Hro; subst d.
  - rewrite (run_raised longest_path {| Transpiler.dag := d0; Transpiler.property_set := ps |}
               d0 e Hlp).
    cbn [fst Transpiler.dag Transpiler.property_set].
    apply run_raised. exact Hlp.
  - rewrite (run_returned longest_path
               {| Transpiler.dag := d0; Transpiler.property_set := ps |} d0 path Hlp).
    cbn [fst Transpiler.dag Transpiler.property_set].
    rewrite (run_returned longest_path _ d0 path) by exact Hlp.
    cbn [Transpiler.dag Transpiler.property_set].
    rewrite insert_insert_eq. reflexivity.
Qed.

Lemma run_idempotent_witness :
  Transpiler.run Transpiler.longest_path
    (Transpiler.run Transpiler.longest_path fresh_state).1
  = Transpiler.run Transpiler.longest_path fresh_state.
Proof.
  apply (run_idempotent Transpiler.longest_path fresh_state).
  exact longest_path_read_only.
Defined.

(** ** iswap.py: every outcome *)

Lemma iswap_outcome_eq (qubit1 qubit2 : Circuit.Qubit) (c : Circuit.QuantumCircuit) :
  Circuit.iswap qubit1 qubit2 c
  = (if bool_decide (Circuit.wire qubit1 = Circuit.wire qubit2)
     then (c, Raised DuplicateWireArgumentError)
     else if negb (Circuit.known (Circuit.qregs c) qubit1
                   && Circuit.known (Circuit.qregs c) qubit2)
     then (c, Raised UnknownWireError)
     else ({| Circuit.qregs := Circuit.qregs c; Circuit.cregs := Circuit.cregs c;
              Circuit.data := Circuit.data c ++ [(Circuit.iSwapGate, [qubit1; qubit2], [])] |},
           Returned (length (Circuit.data c)))).
Proof.
  unfold Circuit.iswap, Circuit.append.
  cbn [length Circuit.iSwapGate Circuit.Gate_init Circuit.num_qubits Circuit.num_clbits
       Nat.eqb andb negb forallb].
  rewrite !andb_true_r.
  destruct (decide (Circuit.wire qubit1 = Circuit.wire qubit2)) as [Hsame | Hdiff].
  - rewrite (bool_decide_eq_true_2 _ Hsame).
    rewrite bool_decide_eq_false_2; [reflexivity |].
    cbn. rewrite Hsame, NoDup_cons. intros [Hnotin _]. apply Hnotin. left.
  - rewrite (bool_decide_eq_false_2 _ Hdiff).
    rewrite bool_decide_eq_true_2; [reflexivity |].
    cbn. apply NoDup_cons. split; [| apply NoDup_singleton].
    intros Hin. apply list_elem_of_singleton in Hin. contradiction.
Qed.

(** [iswap] passes two qubits and no classical bit to the two-qubit
    [iSwapGate], so it never fails with [ArityMismatchError]. With both
    qubits declared and on distinct wires it adds the iSWAP operation on
    [[qubit1, qubit2]] at the end of the circuit and returns its position.
    With distinct wires of which one is undeclared it raises
    [UnknownWireError]; with both qubits declared and the same wire it
    raises [DuplicateWireArgumentError]. Every failure is one of these two
    errors and leaves the circuit as it was. *)
Theorem iswap_outcome (qubit1 qubit2 : Circuit.Qubit) (c : Circuit.QuantumCircuit) :
  (Circuit.iswap qubit1 qubit2 c).2 <> Raised ArityMismatchError
  /\ (Circuit.known (Circuit.qregs c) qubit1 = true ->
      Circuit.known (Circuit.qregs c) qubit2 = true ->
      Circuit.wire qubit1 <> Circuit.wire qubit2 ->
      Circuit.iswap qubit1 qubit2 c
      = ({| Circuit.qregs := Circuit.qregs c; Circuit.cregs := Circuit.cregs c;
            Circuit.data := Circuit.data c ++ [(Circuit.iSwapGate, [qubit1; qubit2], [])] |},
         Returned (length (Circuit.data c))))
  /\ (Circuit.wire qubit1 <> Circuit.wire qubit2 ->
      Circuit.known (Circuit.qregs c) qubit1 = false
      \/ Circuit.known (Circuit.qregs c) qubit2 = false ->
      Circuit.iswap qubit1 qubit2 c = (c, Raised UnknownWireError))
  /\ (Circuit.wire qubit1 = Circuit.wire qubit2 ->
      Circuit.known (Circuit.qregs c) qubit1 = true ->
      Circuit.known (Circuit.qregs c) qubit2 = true ->
      Circuit.iswap qubit1 qubit2 c = (c, Raised DuplicateWireArgumentError))
  /\ (forall e : ErrorKind,
        (Circuit.iswap qubit1 qubit2 c).2 = Raised e ->
        (Circuit.iswap qubit1 qubit2 c).1 = c
        /\ (e = UnknownWireError \/ e = DuplicateWireArgumentError)).
Proof.
  rewrite iswap_outcome_eq.
  destruct (decide (Circuit.wire qubit1 = Circuit.wire qubit2)) as [Hsame | Hdiff].
  - rewrite (bool_decide_eq_true_2 _ Hsame).
    split; [discriminate |]. split; [intros _ _ Hne; contradiction |].
    split; [intros Hne; contradiction |]. split; [reflexivity |].
    intros e [= <-]. split; [reflexivity | right; reflexivity].
  - rewrite (bool_decide_eq_false_2 _ Hdiff).
    destruct (Circuit.known (Circuit.qregs c) qubit1) eqn:H1,
             (Circuit.known (Circuit.qregs c) qubit2) eqn:H2; cbn [andb negb].
    + split; [discriminate |]. split; [reflexivity |].
      split; [intros _ [Hbad | Hbad]; discriminate Hbad |].
      split; [intros Heq; contradiction |]. intros e He. discriminate He.
    + split; [discriminate |]. split; [intros _ Hbad; discriminate Hbad |].
      split; [reflexivity |]. split; [intros Heq; contradiction |].
      intros e [= <-]. split; [reflexivity | left; reflexivity].
    + split; [discriminate |]. split; [intros Hbad; discriminate Hbad |].
      split; [reflexivity |]. split; [intros Heq; contradiction |].
      intros e [= <-]. split; [reflexivity | left; reflexivity].
    + split; [discriminate |]. split; [intros Hbad; discriminate Hbad |].
      split; [reflexivity |]. split; [intros Heq; contradiction |].
      intros e [= <-]. split; [reflexivity | left; reflexivity].
Qed.

Lemma iswap_outcome_witness :
  Circuit.iswap q0 q1 q_circuit
  = ({| Circuit.qregs := {["q" := 2]}; Circuit.cregs := ∅;
        Circuit.data := [] ++ [(Circuit.iSwapGate, [q0; q1], [])] |},
     Returned 0)
  /\ Circuit.iswap q0 (Circuit.getitem (Circuit.QuantumRegister 2 "r") 0) q_circuit
     = (q_circuit, Raised UnknownWireError)
  /\ Circuit.iswap q1 q1 q_circuit = (q_circuit, Raised DuplicateWireArgumentError).
Proof.
  split; [| split].
  - apply (proj1 (proj2 (iswap_outcome q0 q1 q_circuit))).
    + vm_compute. reflexivity.
    + vm_compute. reflexivity.
    + discriminate.
  - apply (proj1 (proj2 (proj2
             (iswap_outcome q0 (Circuit.getitem (Circuit.QuantumRegister 2 "r") 0) q_circuit)))).
    + discriminate.
    + right. vm_compute. reflexivity.
  - apply (proj1 (proj2 (proj2 (proj2 (iswap_outcome q1 q1 q_circuit))))).
    + reflexivity.
    + vm_compute. reflexivity.
    + vm_compute. reflexivity.
Defined.

(** ** The order of the two qubits and failure *)

Lemma no_dup_pair_swap {A : Type} (a b : A) : NoDup [a; b] <-> NoDup [b; a].
Proof. split; intros H; rewrite (perm_swap _ _ []); exact H. Qed.

(** Swapping the two qubit arguments never changes whether the call is
    rejected, nor the error: [cy(ctl, tgt)] raises [e] exactly when
    [cy(tgt, ctl)] does, and likewise [iswap]. *)
Theorem argument_order_and_failure :
  (forall (c : Legacy.QuantumCircuit) (ctl tgt : Legacy.Qubit) (e : ErrorKind),
      Legacy.cy ctl tgt c = (c, Raised e) <-> Legacy.cy tgt ctl c = (c, Raised e))
  /\ (forall (c : Circuit.QuantumCircuit) (qubit1 qubit2 : Circuit.Qubit) (e : ErrorKind),
      Circuit.iswap qubit1 qubit2 c = (c, Raised e)
      <-> Circuit.iswap qubit2 qubit1 c = (c, Raised e)).
Proof.
  split.
  - assert (Hone : forall c ctl tgt e,
               Legacy.cy ctl tgt c = (c, Raised e) -> Legacy.cy tgt ctl c = (c, Raised e)).
    { intros c ctl tgt e. rewrite !cy_outcome.
      rewrite (andb_comm (Legacy.known (Legacy.regs c) tgt)).
      destruct (negb _); [intros H; exact H |].
      rewrite (bool_decide_ext _ _ (no_dup_pair_swap (Legacy.wire tgt) (Legacy.wire ctl))).
      cbn [fmap list_fmap].
      destruct (negb _); [intros H; exact H |].
      unfold Legacy._attach. intros H. discriminate H. }
    intros c ctl tgt e. split; apply Hone.
  - assert (Hone : forall c q1 q2 e,
               Circuit.iswap q1 q2 c = (c, Raised e) -> Circuit.iswap q2 q1 c = (c, Raised e)).
    { intros c q1 q2 e.
      rewrite (iswap_outcome_eq q1 q2 c), (iswap_outcome_eq q2 q1 c).
      rewrite (bool_decide_ext (Circuit.wire q2 = Circuit.wire q1)
                 (Circuit.wire q1 = Circuit.wire q2)) by (split; intros H; symmetry; exact H).
      destruct (bool_decide _); [intros H; exact H |].
      rewrite (andb_comm (Circuit.known (Circuit.qregs c) q2)).
      destruct (negb _); [intros H; exact H |].
      intros H. discriminate H. }
    intros c q1 q2 e. split; apply Hone.
Qed.
